(** * Benchmark reporting scripts: a shallow embedding

    The repository holds two one-shot report generators over the same JSON
    input: [generate-dashboard.py] (an HTML dashboard) and
    [tools/visualization/visualize-benchmark-results.py] (a directory of
    chart images).  Both run Load, Analyze, Render, Write.

    Modelling choices, fixed here once:
    - A decoded JSON object is a finite map from field names to values
      ([gmap string jval]); field values are the JSON scalars.  Elements of
      the input array are objects or scalars.
    - Python numbers are modelled by the rationals they denote, kept in
      lowest terms, extended with the two infinities and NaN, which both
      [float] and the [json] decoder produce.  Arithmetic is exact: the
      rounding and the range of binary64, and the formatting of numbers in
      the output text, are not part of the model.
    - Strings are ASCII strings; what [int] and [float] make of digits
      and spaces outside ASCII is not part of the model, nor is the limit
      on the number of digits [int] accepts.
    - A Python exception is an explicit [Raise]; code that mutates the
      [results] dictionary is written as state passing.
    - What matplotlib draws is represented by the data handed to it (bars,
      annotations, text lines); what is written is the artifact record. *)

From Stdlib Require Import ZArith QArith Qreduction Qcanon Qabs Ascii String Lia.
From stdpp Require Import base option list gmap strings.

Open Scope string_scope.
Open Scope list_scope.
Open Scope Z_scope.

(** ** Python values and exceptions *)

Inductive num : Type :=
  | Fin (q : Q)
  | Inf (negative : bool)
  | NaN.

Inductive jval : Type :=
  | JNull
  | JBool (b : bool)
  | JNum (x : num)
  | JStr (s : string).

Inductive exn : Type :=
  | KeyError (key : string)
  | ValueError
  | TypeError
  | AttributeError
  | IndexError
  | ZeroDivisionError.

Inductive result (A : Type) : Type :=
  | Ok (a : A)
  | Raise (e : exn).
Arguments Ok {A} a.
Arguments Raise {A} e.

#[global] Instance result_ret : MRet result := @Ok.
#[global] Instance result_bind : MBind result := fun A B k m =>
  match m with
  | Ok a => k a
  | Raise e => Raise e
  end.

(** [try: body except: handler] with a bare [except]. *)
Definition try_except {A} (body : result A) (handler : result A) : result A :=
  match body with
  | Ok a => Ok a
  | Raise _ => handler
  end.

(** ** Numbers *)

Module Num.

Definition of_Z (z : Z) : num := Fin (inject_Z z).
Definition of_nat (n : nat) : num := of_Z (Z.of_nat n).
Definition of_bool (b : bool) : num := if b then of_Z 1 else of_Z 0.

Definition add (x y : num) : num :=
  match x, y with
  | NaN, _ | _, NaN => NaN
  | Inf a, Inf b => if Bool.eqb a b then Inf a else NaN
  | Inf a, Fin _ | Fin _, Inf a => Inf a
  | Fin p, Fin q => Fin (Qred (p + q))
  end.

(** [x * n] for a Python int [n]. *)
Definition mul_int (x : num) (n : Z) : num :=
  match x with
  | NaN => NaN
  | Inf a =>
      match n with
      | Z0 => NaN
      | Zpos _ => Inf a
      | Zneg _ => Inf (negb a)
      end
  | Fin q => Fin (Qred (q * inject_Z n))
  end.

(** The quotient of [x] by a non-zero int [n]. *)
Definition quot (x : num) (n : Z) : num :=
  match x with
  | NaN => NaN
  | Inf a => Inf (if (n <? 0) then negb a else a)
  | Fin q => Fin (Qred (q / inject_Z n))
  end.

(** [x / n] for a Python int [n]: true division, which raises on zero. *)
Definition div_int (x : num) (n : Z) : result num :=
  match n with
  | Z0 => Raise ZeroDivisionError
  | _ => Ok (quot x n)
  end.

(** [x > 0] *)
Definition gt0 (x : num) : bool :=
  match x with
  | Fin q => if Qlt_le_dec 0 q then true else false
  | Inf negative => negb negative
  | NaN => false
  end.

(** [bool(x)]: a number is false exactly when it equals zero. *)
Definition truthy (x : num) : bool :=
  match x with
  | Fin q => negb (Qeq_bool q 0)
  | _ => true
  end.

(** [sum(xs)], starting from the int 0. *)
Definition sum (xs : list num) : num := foldl add (of_Z 0) xs.

(** [np.mean(xs)]: the sum divided by the number of elements; numpy
    answers NaN (with a warning, no exception) on the empty list. *)
Definition mean (xs : list num) : num :=
  match xs with
  | [] => NaN
  | _ => quot (sum xs) (Z.of_nat (length xs))
  end.

End Num.

(** ** Python string operations *)

Module Str.

Definition ascii_eqb (a b : ascii) : bool := (nat_of_ascii a =? nat_of_ascii b)%nat.

(** The characters [int] and [float] skip around a number:
    tab, line feed, vertical tab, form feed, carriage return and space. *)
Definition is_space (c : ascii) : bool :=
  let n := nat_of_ascii c in
  ((9 <=? n)%nat && (n <=? 13)%nat) || (n =? 32)%nat.

Definition is_digit (c : ascii) : bool :=
  let n := nat_of_ascii c in (48 <=? n)%nat && (n <=? 57)%nat.

Definition digit_value (c : ascii) : Z := Z.of_nat (nat_of_ascii c) - 48.

Definition lower (c : ascii) : ascii :=
  let n := nat_of_ascii c in
  if (65 <=? n)%nat && (n <=? 90)%nat then ascii_of_nat (n + 32) else c.

Fixpoint skip_spaces (s : string) : string :=
  match s with
  | String c s' => if is_space c then skip_spaces s' else s
  | EmptyString => EmptyString
  end.

Definition all_spaces (s : string) : bool :=
  match skip_spaces s with
  | EmptyString => true
  | String _ _ => false
  end.

(** [needle in hay] on strings: the substring test. *)
Fixpoint contains (needle hay : string) : bool :=
  String.prefix needle hay ||
  match hay with
  | String _ hay' => contains needle hay'
  | EmptyString => false
  end.

(** [s.replace(old, new)] for a non-empty [old]: every occurrence, found
    from left to right without overlap.  [skip] counts the characters of
    a match still to be dropped. *)
Fixpoint replace_from (old new : string) (skip : nat) (s : string) : string :=
  match s with
  | EmptyString => EmptyString
  | String c s' =>
      match skip with
      | S k => replace_from old new k s'
      | O =>
          if String.prefix old s
          then String.append new (replace_from old new (Nat.pred (String.length old)) s')
          else String c (replace_from old new O s')
      end
  end.

Definition replace (old new s : string) : string := replace_from old new O s.

(** [s.split(sep)] for a one-character separator: never empty. *)
Fixpoint split (sep : ascii) (s : string) : list string :=
  match s with
  | EmptyString => [EmptyString]
  | String c s' =>
      if ascii_eqb c sep then EmptyString :: split sep s'
      else match split sep s' with
           | p :: ps => String c p :: ps
           | [] => [String c EmptyString]
           end
  end.

(** An optional sign: whether it is a minus, and what follows it. *)
Definition sign (s : string) : bool * string :=
  match s with
  | String c s' =>
      if ascii_eqb c "-" then (true, s')
      else if ascii_eqb c "+" then (false, s')
      else (false, s)
  | EmptyString => (false, s)
  end.

(** The longest prefix of [s] that continues a run of decimal digits in
    which single underscores may stand between two digits.  [acc] is the
    value read so far and [n] the number of digits read so far; the
    result adds what was read and gives back the unread rest. *)
Fixpoint digitpart (acc : Z) (n : nat) (s : string) : Z * nat * string :=
  match s with
  | String c s' =>
      if is_digit c then digitpart (10 * acc + digit_value c) (S n) s'
      else if ascii_eqb c "_" && (0 <? n)%nat then
        match s' with
        | String d s'' =>
            if is_digit d then digitpart (10 * acc + digit_value d) (S n) s''
            else (acc, n, s)
        | EmptyString => (acc, n, s)
        end
      else (acc, n, s)
  | EmptyString => (acc, n, s)
  end.

(** [int(s)]: optional surrounding white space, an optional sign, then
    decimal digits. *)
Definition int (s : string) : result Z :=
  let '(negative, s1) := sign (skip_spaces s) in
  let '(v, n, rest) := digitpart 0 0 s1 in
  if (0 <? n)%nat && all_spaces rest
  then Ok (if negative then - v else v)
  else Raise ValueError.

(** Case-insensitive prefix test; [word] is given in lower case. *)
Fixpoint ci_prefix (word s : string) : option string :=
  match word with
  | EmptyString => Some s
  | String w word' =>
      match s with
      | String c s' => if ascii_eqb (lower c) w then ci_prefix word' s' else None
      | EmptyString => None
      end
  end.

(** [inf], [infinity] or [nan] in any letter case, and what follows. *)
Definition inf_or_nan (negative : bool) (s : string) : option (num * string) :=
  match ci_prefix "inf" s with
  | Some rest =>
      match ci_prefix "inity" rest with
      | Some rest' => Some (Inf negative, rest')
      | None => Some (Inf negative, rest)
      end
  | None =>
      match ci_prefix "nan" s with
      | Some rest => Some (NaN, rest)
      | None => None
      end
  end.

(** An exponent part [e], [E] with an optional sign and at least one
    digit; when there is none the exponent is 0 and nothing is read. *)
Definition exponent (s : string) : Z * string :=
  match s with
  | String c s' =>
      if ascii_eqb (lower c) "e" then
        let '(negative, s1) := sign s' in
        let '(e, n, rest) := digitpart 0 0 s1 in
        if (0 <? n)%nat then (if negative then - e else e, rest) else (0, s)
      else (0, s)
  | EmptyString => (0, s)
  end.

(** The rational [m * 10 ^ e]. *)
Definition scale10 (m e : Z) : Q :=
  if 0 <=? e then inject_Z (m * 10 ^ e)
  else Qred (Qmake m (Z.to_pos (10 ^ (- e)))).

(** [float(s)]: optional surrounding white space, an optional sign, then
    either a non-finite spelling or digits with an optional fraction and
    an optional exponent, with at least one digit before the exponent. *)
Definition float (s : string) : result num :=
  let '(negative, s1) := sign (skip_spaces s) in
  match inf_or_nan negative s1 with
  | Some (x, rest) => if all_spaces rest then Ok x else Raise ValueError
  | None =>
      let '(i, ni, r1) := digitpart 0 0 s1 in
      let '(m, nf, r2) :=
        match r1 with
        | String c r1' => if ascii_eqb c "." then digitpart i 0 r1' else (i, O, r1)
        | EmptyString => (i, O, r1)
        end in
      let '(e, r3) := exponent r2 in
      if (0 <? ni + nf)%nat && all_spaces r3
      then Ok (Fin (scale10 (if negative then - m else m) (e - Z.of_nat nf)))
      else Raise ValueError
  end.

End Str.

(** ** Decoded JSON *)

(** An element of the input array: an object, or a scalar. *)
Inductive item : Type :=
  | Obj (fields : gmap string jval)
  | Scalar (v : jval).

(** What [json.load] can return: a scalar, an array or an object. *)
Inductive document : Type :=
  | DScalar (v : jval)
  | DArray (items : list item)
  | DObject (fields : gmap string jval).

Module Py.

(** [bool(v)] *)
Definition truthy (v : jval) : bool :=
  match v with
  | JNull => false
  | JBool b => b
  | JNum x => Num.truthy x
  | JStr s => negb (String.eqb s "")
  end.

Definition truthy_document (d : document) : bool :=
  match d with
  | DScalar v => truthy v
  | DArray items => match items with [] => false | _ => true end
  | DObject fields => negb (bool_decide (fields = ∅))
  end.

(** The numeric value of a number or a bool. *)
Definition as_num (v : jval) : option num :=
  match v with
  | JBool b => Some (Num.of_bool b)
  | JNum x => Some x
  | JNull | JStr _ => None
  end.

Definition num_eqb (x y : num) : bool :=
  match x, y with
  | Fin p, Fin q => Qeq_bool p q
  | Inf a, Inf b => Bool.eqb a b
  | NaN, NaN => true
  | _, _ => false
  end.

(** Equality of dictionary keys: [==] on equal hashes, or identity; the
    decoder hands out one shared NaN object, so NaN is the same key as
    itself. *)
Definition key_eqb (a b : jval) : bool :=
  match a, b with
  | JNull, JNull => true
  | JStr s, JStr t => String.eqb s t
  | _, _ =>
      match as_num a, as_num b with
      | Some x, Some y => num_eqb x y
      | _, _ => false
      end
  end.

(** [key in item] *)
Definition contains (it : item) (key : string) : result bool :=
  match it with
  | Obj fields => Ok (bool_decide (is_Some (fields !! key)))
  | Scalar (JStr s) => Ok (Str.contains key s)
  | Scalar _ => Raise TypeError
  end.

(** [item[key]] *)
Definition getitem (it : item) (key : string) : result jval :=
  match it with
  | Obj fields =>
      match fields !! key with
      | Some v => Ok v
      | None => Raise (KeyError key)
      end
  | Scalar _ => Raise TypeError
  end.

(** [item.get(key, dflt)] *)
Definition get (it : item) (key : string) (dflt : jval) : result jval :=
  match it with
  | Obj fields => Ok (default dflt (fields !! key))
  | Scalar _ => Raise AttributeError
  end.

(** [v.replace(old, new)] and [v.split(sep)]: string methods. *)
Definition replace (v : jval) (old new : string) : result string :=
  match v with
  | JStr s => Ok (Str.replace old new s)
  | _ => Raise AttributeError
  end.

Definition split (v : jval) (sep : ascii) : result (list string) :=
  match v with
  | JStr s => Ok (Str.split sep s)
  | _ => Raise AttributeError
  end.

(** [sum(vs)] over decoded values: [0 + v1 + v2 + ...]. *)
Definition sum (vs : list jval) : result num :=
  xs ← mapM (fun v => match as_num v with
                      | Some x => Ok x
                      | None => Raise TypeError
                      end) vs;
  Ok (Num.sum xs).

(** [np.mean(vs)] over decoded values: numpy refuses strings and None. *)
Definition np_mean (vs : list jval) : result num :=
  xs ← mapM (fun v => match as_num v with
                      | Some x => Ok x
                      | None => Raise TypeError
                      end) vs;
  Ok (Num.mean xs).

(** *** Dictionaries keyed by decoded values, in insertion order *)

Definition dict (V : Type) : Type := list (jval * V).

Fixpoint dict_get {V} (d : dict V) (key : jval) : option V :=
  match d with
  | [] => None
  | (k, v) :: d' => if key_eqb k key then Some v else dict_get d' key
  end.

(** [d[key] = f(d.get(key))] *)
Fixpoint dict_update {V} (f : option V -> V) (key : jval) (d : dict V) : dict V :=
  match d with
  | [] => [(key, f None)]
  | (k, v) :: d' =>
      if key_eqb k key then (k, f (Some v)) :: d'
      else (k, v) :: dict_update f key d'
  end.

(** [Counter(xs)] *)
Definition Counter (xs : list jval) : dict nat :=
  foldl (fun d x => dict_update (fun o => S (default O o)) x d) [] xs.

(** [d = defaultdict(list)], then [d[k].append(v)] for each pair. *)
Definition group {V} (pairs : list (jval * V)) : dict (list V) :=
  foldl (fun d kv => dict_update (fun o => default [] o ++ [kv.2]) kv.1 d) [] pairs.

(** [zip(xs, ys)] stops with the shorter list. *)
Definition zip {A B} (xs : list A) (ys : list B) : list (A * B) := combine xs ys.

End Py.

(** The five categories, in the order every view uses. *)
Definition frequencies : list string :=
  ["immediate"; "continuous"; "analysis"; "optimization"; "evolution"].

(** ** Charts and program runs

    A chart is the data handed to matplotlib: the bars in the order they
    are drawn and the text annotations placed on them. *)

Record count_chart : Type := {
  bars : list (string * nat);
  count_labels : list (string * nat);
  percentage_labels : list (string * num)
}.

Record value_chart : Type := {
  value_bars : list (string * num);
  value_labels : list (string * num)
}.

(** The labels put on the bars whose value is positive. *)
Definition positive_labels (bars : list (string * num)) : list (string * num) :=
  filter (fun bar => Num.gt0 bar.2 = true) bars.

(** [Counter.get(freq, 0)] for each of the five labels. *)
Definition counts_of (sk_freq_count : Py.dict nat) : list nat :=
  map (fun freq => default O (Py.dict_get sk_freq_count (JStr freq))) frequencies.

(** Lines printed on standard output. *)
Inductive message : Type :=
  | Usage
  | ErrorLoadingData
  | CouldNotLoadDataFrom (input_file : string)
  | DashboardGenerated (output_file : string)
  | NoEconomicValueData
  | VisualizationsSavedTo (output_dir : string).

(** How a run ends: falling off the end of [main], [sys.exit], or an
    exception nobody catches. *)
Inductive ending : Type :=
  | Finished
  | Exit (status : Z)
  | Uncaught (e : exn).

Record run (artifact : Type) : Type := {
  stdout : list message;
  written : list (string * artifact);
  ended : ending
}.
Arguments stdout {artifact} r.
Arguments written {artifact} r.
Arguments ended {artifact} r.

(** What a run sees of the outside: the command line, the clock as
    [strftime("%Y%m%d_%H%M%S")] prints it, and for every path what opening
    and decoding it gives ([None] when either step raises). *)
Record env : Type := {
  argv : list string;
  timestamp : string;
  read_json : string -> option document
}.

(** [load_data(filename)] with what it prints. *)
Definition load_data (e : env) (filename : string) : list message * document :=
  match read_json e filename with
  | Some data => ([], data)
  | None => ([ErrorLoadingData], DScalar JNull)
  end.

(** The items [for item in data] goes through: the elements of an array,
    the keys of an object (every outcome of the loop is the same in any
    key order), the characters of a string; other values do not iterate. *)
Definition iterate (data : document) : result (list item) :=
  match data with
  | DArray items => Ok items
  | DObject fields => Ok (map (fun kv : string * jval => Scalar (JStr kv.1)) (map_to_list fields))
  | DScalar (JStr s) =>
      Ok (map (fun c => Scalar (JStr (String c EmptyString))) (list_ascii_of_string s))
  | DScalar _ => Raise TypeError
  end.

(** ** generate-dashboard.py *)

Module Dashboard.

Record results : Type := {
  sk_frequencies : list jval;
  sk_economic_values : list jval;
  sk_processing_times : list num;
  goals : list jval;
  contexts : list jval;
  timestamps : list jval;
  successful : list jval
}.

Definition empty_results : results :=
  {| sk_frequencies := []; sk_economic_values := []; sk_processing_times := [];
     goals := []; contexts := []; timestamps := []; successful := [] |}.

(** The milliseconds of an [ExecutionTime] value: first as a tick count,
    and when anything in that fails, as [hours:minutes:seconds]. *)
Definition execution_ms (v : jval) : result num :=
  try_except
    (s ← Py.replace v " Ticks" "";
     ticks ← Str.int s;
     Num.div_int (Num.of_Z ticks) 10000)
    (time_parts ← Py.split v ":";
     match time_parts with
     | [hours; minutes; seconds] =>
         seconds ← Str.float seconds;
         h ← Str.int hours;
         m ← Str.int minutes;
         Ok (Num.mul_int
               (Num.add (Num.add (Num.of_Z (h * 3600)) (Num.of_Z (m * 60))) seconds)
               1000)
     | _ => Ok (Num.of_Z 0)
     end).

(** The six [append] calls made for every kept record. *)
Definition store (res : results)
    (frequency economic_value goal context timestamp was_successful : jval) : results :=
  {| sk_frequencies := sk_frequencies res ++ [frequency];
     sk_economic_values := sk_economic_values res ++ [economic_value];
     sk_processing_times := sk_processing_times res;
     goals := goals res ++ [goal];
     contexts := contexts res ++ [context];
     timestamps := timestamps res ++ [timestamp];
     successful := successful res ++ [was_successful] |}.

(** [results['sk_processing_times'].append(ms)] *)
Definition store_time (res : results) (ms : num) : results :=
  {| sk_frequencies := sk_frequencies res;
     sk_economic_values := sk_economic_values res;
     sk_processing_times := sk_processing_times res ++ [ms];
     goals := goals res;
     contexts := contexts res;
     timestamps := timestamps res;
     successful := successful res |}.

(** One turn of the loop of [analyze_data]. *)
Definition analyze_item (res : results) (it : item) : result results :=
  present ← Py.contains it "RecommendedFrequency";
  if negb present then Ok res else
  frequency ← Py.getitem it "RecommendedFrequency";
  goal ← Py.get it "Goal" (JStr "");
  context ← Py.get it "Context" (JStr "");
  economic_value ← Py.get it "EconomicValue" (JNum (Num.of_Z 0));
  timestamp ← Py.get it "Timestamp" (JStr "");
  was_successful ← Py.get it "WasSuccessful" (JBool true);
  let res := store res frequency economic_value goal context timestamp was_successful in
  has_time ← Py.contains it "ExecutionTime";
  if has_time : bool then
    (time ← Py.getitem it "ExecutionTime";
     ms ← execution_ms time;
     Ok (store_time res ms))
  else Ok res.

Fixpoint analyze_from (res : results) (data : list item) : result results :=
  match data with
  | [] => Ok res
  | it :: data' => res' ← analyze_item res it; analyze_from res' data'
  end.

Definition analyze_data (data : list item) : result results :=
  analyze_from empty_results data.

Definition create_frequency_chart (res : results) : result count_chart :=
  let sk_freq_count := Py.Counter (sk_frequencies res) in
  let sk_counts := counts_of sk_freq_count in
  let bars := Py.zip frequencies sk_counts in
  let count_labels := filter (fun bar => (0 < bar.2)%nat) bars in
  let total := sum_list sk_counts in
  percentage_labels ←
    mapM (fun bar : string * nat =>
            ratio ← Num.div_int (Num.of_nat bar.2) (Z.of_nat total);
            Ok (bar.1, Num.mul_int ratio 100))
         (filter (fun bar => (0 < bar.2)%nat) bars);
  Ok {| bars := bars; count_labels := count_labels;
        percentage_labels := percentage_labels |}.

Definition create_economic_chart (res : results) : result value_chart :=
  let freq_values := Py.group (Py.zip (sk_frequencies res) (sk_economic_values res)) in
  avg_values ←
    mapM (fun freq =>
            match default [] (Py.dict_get freq_values (JStr freq)) with
            | [] => Ok (Num.of_Z 0)
            | values => Py.np_mean values
            end) frequencies;
  let bars := Py.zip frequencies avg_values in
  Ok {| value_bars := bars; value_labels := positive_labels bars |}.

Definition create_processing_time_chart (res : results) : result (option value_chart) :=
  match sk_processing_times res with
  | [] => Ok None
  | _ =>
      let freq_times := Py.group (Py.zip (sk_frequencies res) (sk_processing_times res)) in
      let avg_times :=
        map (fun freq =>
               match default [] (Py.dict_get freq_times (JStr freq)) with
               | [] => Num.of_Z 0
               | times => Num.mean times
               end) frequencies in
      let bars := Py.zip frequencies avg_times in
      Ok (Some {| value_bars := bars; value_labels := positive_labels bars |})
  end.

(** [sum(successes) / len(successes) * 100] *)
Definition rate (successes : list jval) : result num :=
  total ← Py.sum successes;
  ratio ← Num.div_int total (Z.of_nat (length successes));
  Ok (Num.mul_int ratio 100).

Definition create_success_rate_chart (res : results) : result value_chart :=
  let freq_success := Py.group (Py.zip (sk_frequencies res) (successful res)) in
  success_rates ←
    mapM (fun freq =>
            match default [] (Py.dict_get freq_success (JStr freq)) with
            | [] => Ok (Num.of_Z 0)
            | successes => rate successes
            end) frequencies;
  let bars := Py.zip frequencies success_rates in
  Ok {| value_bars := bars; value_labels := positive_labels bars |}.

(** *** The HTML document *)

Record frequency_metric : Type := {
  freq_name : string;
  freq_count : nat;
  freq_percentage : num
}.

(** A row of the sample table; [row_success] is the check mark ([true])
    or the cross ([false]). *)
Record sample_row : Type := {
  row_goal : jval;
  row_context : jval;
  row_frequency : jval;
  row_economic_value : jval;
  row_success : bool
}.

Record dashboard : Type := {
  total_decisions : nat;
  avg_economic_value : num;
  avg_processing_time : num;
  success_rate : num;
  frequency_chart : count_chart;
  economic_chart : value_chart;
  processing_time_chart : option value_chart;
  success_chart : value_chart;
  freq_metrics : list frequency_metric;
  sample_decisions : list sample_row
}.

(** [l[i]] *)
Definition index {A} (l : list A) (i : nat) : result A :=
  match l !! i with
  | Some a => Ok a
  | None => Raise IndexError
  end.

Definition frequency_metrics (res : results) (total_decisions : nat)
    : result (list frequency_metric) :=
  let freq_distribution := Py.Counter (sk_frequencies res) in
  mapM (fun freq =>
          let count := default O (Py.dict_get freq_distribution (JStr freq)) in
          percentage ←
            (if (0 <? total_decisions)%nat
             then ratio ← Num.div_int (Num.of_nat count) (Z.of_nat total_decisions);
                  Ok (Num.mul_int ratio 100)
             else Ok (Num.of_Z 0));
          Ok {| freq_name := freq; freq_count := count;
                freq_percentage := percentage |}) frequencies.

Definition sample_rows (res : results) : result (list sample_row) :=
  let max_samples := Nat.min 10 (length (goals res)) in
  mapM (fun i =>
          goal ← index (goals res) i;
          context ← (if (i <? length (contexts res))%nat
                     then index (contexts res) i else Ok (JStr ""));
          frequency ← index (sk_frequencies res) i;
          economic_value ← index (sk_economic_values res) i;
          success ← index (successful res) i;
          Ok {| row_goal := goal; row_context := context;
                row_frequency := frequency;
                row_economic_value := economic_value;
                row_success := Py.truthy success |}) (seq 0 max_samples).

(** The content of the document [generate_html_dashboard] writes to
    [output_file]. *)
Definition generate_html_dashboard (res : results) (output_file : string)
    : result (string * dashboard) :=
  frequency_chart ← create_frequency_chart res;
  economic_chart ← create_economic_chart res;
  processing_time_chart ← create_processing_time_chart res;
  success_chart ← create_success_rate_chart res;
  let total_decisions := length (sk_frequencies res) in
  avg_economic_value ←
    match sk_economic_values res with
    | [] => Ok (Num.of_Z 0)
    | values => Py.np_mean values
    end;
  let avg_processing_time :=
    match sk_processing_times res with
    | [] => Num.of_Z 0
    | times => Num.mean times
    end in
  success_rate ←
    match successful res with
    | [] => Ok (Num.of_Z 0)
    | successes => rate successes
    end;
  freq_metrics ← frequency_metrics res total_decisions;
  sample_decisions ← sample_rows res;
  Ok (output_file,
      {| total_decisions := total_decisions;
         avg_economic_value := avg_economic_value;
         avg_processing_time := avg_processing_time;
         success_rate := success_rate;
         frequency_chart := frequency_chart;
         economic_chart := economic_chart;
         processing_time_chart := processing_time_chart;
         success_chart := success_chart;
         freq_metrics := freq_metrics;
         sample_decisions := sample_decisions |}).

Definition main (e : env) : run dashboard :=
  match argv e with
  | _ :: input_file :: rest =>
      let output_file :=
        match rest with
        | given :: _ => given
        | [] => String.append "sk_router_dashboard_" (String.append (timestamp e) ".html")
        end in
      let '(printed, data) := load_data e input_file in
      if negb (Py.truthy_document data)
      then {| stdout := printed ++ [CouldNotLoadDataFrom input_file];
              written := []; ended := Exit 1 |}
      else
        match items ← iterate data;
              res ← analyze_data items;
              generate_html_dashboard res output_file with
        | Ok file =>
            {| stdout := printed ++ [DashboardGenerated output_file];
               written := [file]; ended := Finished |}
        | Raise exc => {| stdout := printed; written := []; ended := Uncaught exc |}
        end
  | _ => {| stdout := [Usage]; written := []; ended := Exit 1 |}
  end.

End Dashboard.

(** ** tools/visualization/visualize-benchmark-results.py *)

Module Visualize.

Record results : Type := {
  sk_frequencies : list jval;
  sk_economic_values : list jval;
  sk_processing_times : list num
}.

Definition empty_results : results :=
  {| sk_frequencies := []; sk_economic_values := []; sk_processing_times := [] |}.

(** The two [append] calls made for every kept record. *)
Definition store (res : results) (frequency economic_value : jval) : results :=
  {| sk_frequencies := sk_frequencies res ++ [frequency];
     sk_economic_values := sk_economic_values res ++ [economic_value];
     sk_processing_times := sk_processing_times res |}.

(** [results['sk_processing_times'].append(ms)] *)
Definition store_time (res : results) (ms : num) : results :=
  {| sk_frequencies := sk_frequencies res;
     sk_economic_values := sk_economic_values res;
     sk_processing_times := sk_processing_times res ++ [ms] |}.

(** The milliseconds of an [ExecutionTime] value, read as a tick count. *)
Definition execution_ms (v : jval) : result num :=
  s ← Py.replace v " Ticks" "";
  ticks ← Str.int s;
  Num.div_int (Num.of_Z ticks) 10000.

(** One turn of the loop of [analyze_data]. *)
Definition analyze_item (res : results) (it : item) : result results :=
  present ← Py.contains it "RecommendedFrequency";
  if negb present then Ok res else
  frequency ← Py.getitem it "RecommendedFrequency";
  goal ← Py.getitem it "Goal";
  context ← Py.get it "Context" (JStr "");
  economic_value ← Py.get it "EconomicValue" (JNum (Num.of_Z 0));
  let res := store res frequency economic_value in
  has_time ← Py.contains it "ExecutionTime";
  if has_time : bool then
    (time ← Py.getitem it "ExecutionTime";
     ms ← execution_ms time;
     Ok (store_time res ms))
  else Ok res.

Fixpoint analyze_from (res : results) (data : list item) : result results :=
  match data with
  | [] => Ok res
  | it :: data' => res' ← analyze_item res it; analyze_from res' data'
  end.

Definition analyze_data (data : list item) : result results :=
  analyze_from empty_results data.

(** *** The pictures *)

(** One box of the box plot, with the mean written under it. *)
Record box : Type := {
  box_label : string;
  box_data : list jval;
  box_mean : num
}.

(** The lines of the text summary. *)
Inductive line : Type :=
  | TotalDecisions (n : nat)
  | AverageEconomicValue (x : num)
  | AverageProcessingTime (x : num)
  | FrequencyDistributionHeader
  | FrequencyLine (freq : string) (count : nat) (percentage : num)
  | EconomicValueHeader
  | EconomicValueLine (freq : string) (avg : num).

Inductive picture : Type :=
  | FrequencyDistribution (chart : count_chart)
  | EconomicValueDistribution (boxes : list box)
  | ProcessingTime (chart : value_chart)
  | Summary (text : list line).

Definition create_frequency_distribution (res : results) : result count_chart :=
  let sk_freq_count := Py.Counter (sk_frequencies res) in
  let sk_counts := counts_of sk_freq_count in
  let sk_bars := Py.zip frequencies sk_counts in
  let total_sk := sum_list sk_counts in
  percentage_labels ←
    mapM (fun bar : string * nat =>
            ratio ← Num.div_int (Num.of_nat bar.2) (Z.of_nat total_sk);
            Ok (bar.1, Num.mul_int ratio 100))
         (filter (fun bar => (0 < bar.2)%nat) sk_bars);
  Ok {| bars := sk_bars; count_labels := sk_bars;
        percentage_labels := percentage_labels |}.

(** [None] when there is nothing to plot: the function prints a notice
    and returns before drawing. *)
Definition create_economic_value_distribution (res : results)
    : result (option (list box)) :=
  let freq_values := Py.group (Py.zip (sk_frequencies res) (sk_economic_values res)) in
  let data := map (fun freq => default [] (Py.dict_get freq_values (JStr freq))) frequencies in
  let valid :=
    filter (fun fv : string * list jval => fv.2 ≠ []) (Py.zip frequencies data) in
  match valid with
  | [] => Ok None
  | _ =>
      boxes ←
        mapM (fun fv : string * list jval =>
                mean_val ← Py.np_mean fv.2;
                Ok {| box_label := fv.1; box_data := fv.2; box_mean := mean_val |})
             valid;
      Ok (Some boxes)
  end.

Definition create_processing_time_visualization (res : results) : value_chart :=
  let freq_times := Py.group (Py.zip (sk_frequencies res) (sk_processing_times res)) in
  let avg_times :=
    map (fun freq =>
           match default [] (Py.dict_get freq_times (JStr freq)) with
           | [] => Num.of_Z 0
           | times => Num.mean times
           end) frequencies in
  let bars := Py.zip frequencies avg_times in
  {| value_bars := bars; value_labels := positive_labels bars |}.

Definition create_summary_visualization (res : results) : result (list line) :=
  let total_decisions := length (sk_frequencies res) in
  let freq_distribution := Py.Counter (sk_frequencies res) in
  avg_economic_value ←
    match sk_economic_values res with
    | [] => Ok (Num.of_Z 0)
    | values => Py.np_mean values
    end;
  let avg_processing_time :=
    match sk_processing_times res with
    | [] => Num.of_Z 0
    | times => Num.mean times
    end in
  frequency_lines ←
    mapM (fun freq =>
            let count := default O (Py.dict_get freq_distribution (JStr freq)) in
            percentage ←
              (if (0 <? total_decisions)%nat
               then ratio ← Num.div_int (Num.of_nat count) (Z.of_nat total_decisions);
                    Ok (Num.mul_int ratio 100)
               else Ok (Num.of_Z 0));
            Ok (FrequencyLine freq count percentage)) frequencies;
  let freq_values := Py.group (Py.zip (sk_frequencies res) (sk_economic_values res)) in
  economic_lines ←
    mapM (fun fv : string * list jval =>
            avg ← Py.np_mean fv.2;
            Ok (EconomicValueLine fv.1 avg))
         (filter (fun fv : string * list jval => fv.2 ≠ [])
            (map (fun freq => (freq, default [] (Py.dict_get freq_values (JStr freq))))
               frequencies));
  Ok ([TotalDecisions total_decisions;
       AverageEconomicValue avg_economic_value;
       AverageProcessingTime avg_processing_time;
       FrequencyDistributionHeader]
      ++ frequency_lines ++ [EconomicValueHeader] ++ economic_lines).

(** [os.path.join(output_dir, name)]; the directory name ends with the
    time stamp. *)
Definition path (output_dir name : string) : string :=
  String.append output_dir (String.append "/" name).

(** The files are saved one after the other: an exception in a later
    step leaves the earlier files written. *)
Definition create_visualizations (res : results) (output_dir : string)
    : run picture :=
  match create_frequency_distribution res with
  | Raise exc => {| stdout := []; written := []; ended := Uncaught exc |}
  | Ok frequency =>
  let files := [(path output_dir "frequency_distribution.png", FrequencyDistribution frequency)] in
  match create_economic_value_distribution res with
  | Raise exc => {| stdout := []; written := files; ended := Uncaught exc |}
  | Ok economic =>
  let printed := match economic with None => [NoEconomicValueData] | Some _ => [] end in
  let files :=
    files ++ match economic with
             | Some boxes =>
                 [(path output_dir "economic_value_distribution.png",
                   EconomicValueDistribution boxes)]
             | None => []
             end in
  let files :=
    files ++ match sk_processing_times res with
             | [] => []
             | _ => [(path output_dir "processing_time.png",
                      ProcessingTime (create_processing_time_visualization res))]
             end in
  match create_summary_visualization res with
  | Raise exc => {| stdout := printed; written := files; ended := Uncaught exc |}
  | Ok text =>
      {| stdout := printed ++ [VisualizationsSavedTo output_dir];
         written := files ++ [(path output_dir "summary.png", Summary text)];
         ended := Finished |}
  end end end.

Definition main (e : env) : run picture :=
  match argv e with
  | _ :: input_file :: rest =>
      let output_dir :=
        match rest with
        | given :: _ => given
        | [] => "benchmark_visualizations"
        end in
      let output_dir := String.append output_dir (String.append "_" (timestamp e)) in
      let '(printed, data) := load_data e input_file in
      if negb (Py.truthy_document data)
      then {| stdout := printed ++ [CouldNotLoadDataFrom input_file];
              written := []; ended := Exit 1 |}
      else
        match items ← iterate data; analyze_data items with
        | Ok res =>
            let r := create_visualizations res output_dir in
            {| stdout := printed ++ stdout r; written := written r; ended := ended r |}
        | Raise exc => {| stdout := printed; written := []; ended := Uncaught exc |}
        end
  | _ => {| stdout := [Usage]; written := []; ended := Exit 1 |}
  end.

End Visualize.

(** ** Vocabulary of the statements *)

(** A qualifying record is an object that has the [RecommendedFrequency]
    field; [qualifying] gives its frequency and its fields. *)
Definition qualifying (it : item) : option (jval * gmap string jval) :=
  match it with
  | Obj fields => (fun frequency => (frequency, fields)) <$> fields !! "RecommendedFrequency"
  | Scalar _ => None
  end.

(** The qualifying records of an input array, in order. *)
Definition kept (data : list item) : list (jval * gmap string jval) :=
  omap qualifying data.

(** Whether a decoded value is the label [freq]. *)
Definition is_label (freq : string) (v : jval) : bool := Py.key_eqb v (JStr freq).

(** Whether a decoded value is one of the five labels. *)
Definition is_fixed_label (v : jval) : bool :=
  existsb (fun freq => is_label freq v) frequencies.

(** How many of the values are the label [freq]. *)
Definition occurrences (freq : string) (vs : list jval) : nat :=
  length (filter (fun v => is_label freq v = true) vs).

(** The field [key] of each record of category [freq], with [dflt] where
    the record has no such field. *)
Definition field_of_category (freq key : string) (dflt : jval)
    (records : list (jval * gmap string jval)) : list jval :=
  map (fun r : jval * gmap string jval => default dflt (r.2 !! key))
      (filter (fun r : jval * gmap string jval => is_label freq r.1 = true) records).

(** The execution times of the records that have one. *)
Definition times_of (records : list (jval * gmap string jval)) : list jval :=
  omap (fun r : jval * gmap string jval => r.2 !! "ExecutionTime") records.

(** What is shown when no record qualifies: every category at zero. *)
Definition zero_counts : list (string * nat) :=
  map (fun freq => (freq, O)) frequencies.

Definition zero_bars : value_chart :=
  {| value_bars := map (fun freq => (freq, Num.of_Z 0)) frequencies;
     value_labels := [] |}.

Definition zero_dashboard : Dashboard.dashboard :=
  {| Dashboard.total_decisions := 0;
     Dashboard.avg_economic_value := Num.of_Z 0;
     Dashboard.avg_processing_time := Num.of_Z 0;
     Dashboard.success_rate := Num.of_Z 0;
     Dashboard.frequency_chart :=
       {| bars := zero_counts; count_labels := []; percentage_labels := [] |};
     Dashboard.economic_chart := zero_bars;
     Dashboard.processing_time_chart := None;
     Dashboard.success_chart := zero_bars;
     Dashboard.freq_metrics :=
       map (fun freq => {| Dashboard.freq_name := freq;
                           Dashboard.freq_count := 0;
                           Dashboard.freq_percentage := Num.of_Z 0 |}) frequencies;
     Dashboard.sample_decisions := [] |}.

Definition zero_pictures (output_dir : string) : list (string * Visualize.picture) :=
  [(Visualize.path output_dir "frequency_distribution.png",
    Visualize.FrequencyDistribution
      {| bars := zero_counts; count_labels := zero_counts; percentage_labels := [] |});
   (Visualize.path output_dir "summary.png",
    Visualize.Summary
      ([Visualize.TotalDecisions 0;
        Visualize.AverageEconomicValue (Num.of_Z 0);
        Visualize.AverageProcessingTime (Num.of_Z 0);
        Visualize.FrequencyDistributionHeader]
       ++ map (fun freq => Visualize.FrequencyLine freq 0 (Num.of_Z 0)) frequencies
       ++ [Visualize.EconomicValueHeader]))].

(** [successes] out of [total], as a percentage; 0 when [total] is 0. *)
Definition is_rate (successes total : nat) (x : num) : Prop :=
  match total with
  | O => x = Fin 0%Q
  | S _ =>
      exists q : Q, x = Fin q /\
        (q == inject_Z (Z.of_nat successes) / inject_Z (Z.of_nat total) * 100)%Q /\
        (0 <= q)%Q /\ (q <= 100)%Q
  end.

(** The success flag is the boolean [true]. *)
Definition is_true_flag (v : jval) : bool :=
  match v with
  | JBool b => b
  | _ => false
  end.

(** The success flag is a boolean. *)
Definition is_flag (v : jval) : Prop := exists b, v = JBool b.

(** The five categories in order, each with the number of its records. *)
Definition counts_in_order (fs : list jval) : list (string * nat) :=
  map (fun freq => (freq, occurrences freq fs)) frequencies.

(** A bar stands for category [freq] and is at zero when the category has
    no record. *)
Definition shows_category (fs : list jval) (freq : string) (bar : string * num) : Prop :=
  bar.1 = freq /\ (occurrences freq fs = O -> bar.2 = Num.of_Z 0).

(** The categories that have at least one record, in the fixed order. *)
Definition categories_with_records (fs : list jval) : list string :=
  filter (fun freq => (0 < occurrences freq fs)%nat) frequencies.

(** The per-frequency lines of the text summary. *)
Definition frequency_lines (text : list Visualize.line) : list (string * nat) :=
  omap (fun l => match l with
                 | Visualize.FrequencyLine freq count _ => Some (freq, count)
                 | _ => None
                 end) text.

Definition economic_lines (text : list Visualize.line) : list string :=
  omap (fun l => match l with
                 | Visualize.EconomicValueLine freq _ => Some freq
                 | _ => None
                 end) text.

(** Two aggregates, the second after the first. *)
Definition dashboard_append (r1 r2 : Dashboard.results) : Dashboard.results :=
  {| Dashboard.sk_frequencies := Dashboard.sk_frequencies r1 ++ Dashboard.sk_frequencies r2;
     Dashboard.sk_economic_values :=
       Dashboard.sk_economic_values r1 ++ Dashboard.sk_economic_values r2;
     Dashboard.sk_processing_times :=
       Dashboard.sk_processing_times r1 ++ Dashboard.sk_processing_times r2;
     Dashboard.goals := Dashboard.goals r1 ++ Dashboard.goals r2;
     Dashboard.contexts := Dashboard.contexts r1 ++ Dashboard.contexts r2;
     Dashboard.timestamps := Dashboard.timestamps r1 ++ Dashboard.timestamps r2;
     Dashboard.successful := Dashboard.successful r1 ++ Dashboard.successful r2 |}.

Definition visualize_append (r1 r2 : Visualize.results) : Visualize.results :=
  {| Visualize.sk_frequencies := Visualize.sk_frequencies r1 ++ Visualize.sk_frequencies r2;
     Visualize.sk_economic_values :=
       Visualize.sk_economic_values r1 ++ Visualize.sk_economic_values r2;
     Visualize.sk_processing_times :=
       Visualize.sk_processing_times r1 ++ Visualize.sk_processing_times r2 |}.

(** The row of the sample table that shows a kept record. *)
Definition row_of (r : jval * gmap string jval) : Dashboard.sample_row :=
  {| Dashboard.row_goal := default (JStr "") (r.2 !! "Goal");
     Dashboard.row_context := default (JStr "") (r.2 !! "Context");
     Dashboard.row_frequency := r.1;
     Dashboard.row_economic_value := default (JNum (Num.of_Z 0)) (r.2 !! "EconomicValue");
     Dashboard.row_success := Py.truthy (default (JBool true) (r.2 !! "WasSuccessful")) |}.


(** The mean of the times, or zero when there is none. *)
Definition mean_or_zero (times : list num) : num :=
  match times with
  | [] => Num.of_Z 0
  | _ => Num.mean times
  end.

(** The kept records of category [freq]. *)
Definition records_of_category (freq : string)
    (records : list (jval * gmap string jval)) : list (jval * gmap string jval) :=
  filter (fun r : jval * gmap string jval => is_label freq r.1 = true) records.

(** The aggregates of the two scripts agree on the lists they share. *)
Definition same_aggregate (v : Visualize.results) (d : Dashboard.results) : Prop :=
  Dashboard.sk_frequencies d = Visualize.sk_frequencies v /\
  Dashboard.sk_economic_values d = Visualize.sk_economic_values v /\
  Dashboard.sk_processing_times d = Visualize.sk_processing_times v.




(** The economic value and the success flag a kept record is stored with. *)
Definition economic_value_of (r : jval * gmap string jval) : jval :=
  default (JNum (Num.of_Z 0)) (r.2 !! "EconomicValue").


(** ** The range in which the arithmetic of the model is that of Python

    Python raises [OverflowError] when an int is divided by an int, or
    turned into a float, and the result is beyond the finite range of
    binary64, and [int] refuses strings of more than 4300 digits.  The
    definitions above compute with exact numbers; the statements that
    depend on the difference carry the bounds below as hypotheses. *)

(** The largest finite binary64 number. *)
Definition float_max : Z := 2 ^ 1024 - 2 ^ 971.

(** A rational within the finite range of binary64. *)
Definition in_float_range (q : Q) : Prop := (Qabs q <= inject_Z float_max)%Q.

(** The number of digits [int] accepts. *)
Definition int_max_str_digits : nat := 4300.


(** A value that is not a number, or is a finite number of magnitude at
    most 2^53. *)
Definition moderate (v : jval) : Prop :=
  match Py.as_num v with
  | Some (Fin q) => (Qabs q <= inject_Z (2 ^ 53))%Q
  | Some _ => False
  | None => True
  end.

(** A processing time that is finite and within the range of binary64. *)
Definition finite_time (x : num) : Prop :=
  exists q, x = Fin q /\ in_float_range q.

(** The percentage annotations of a frequency chart: on each category
    that has records, its count over the sum of the five counts, times
    100. *)
Definition percentages_in_order (fs : list jval) : list (string * num) :=
  map (fun freq =>
         (freq,
          Num.mul_int
            (Num.quot (Num.of_nat (occurrences freq fs))
               (Z.of_nat (length (filter (fun v => is_fixed_label v = true) fs))))
            100))
      (categories_with_records fs).

(** ** Sample inputs *)

Module Sample.

(** [{"RecommendedFrequency": "weekly", "Goal": "g"}] *)
Definition weekly : item :=
  Obj (<["RecommendedFrequency" := JStr "weekly"]> (<["Goal" := JStr "g"]> ∅)).

(** [{"RecommendedFrequency": "immediate", "Goal": "g"}] *)
Definition immediate : item :=
  Obj (<["RecommendedFrequency" := JStr "immediate"]> (<["Goal" := JStr "g"]> ∅)).

(** [{"RecommendedFrequency": "evolution"}]: no [Goal]. *)
Definition no_goal : gmap string jval :=
  <["RecommendedFrequency" := JStr "evolution"]> ∅.

(** [{"Goal": "g", "EconomicValue": 50}]: no frequency. *)
Definition no_frequency : gmap string jval :=
  <["Goal" := JStr "g"]> (<["EconomicValue" := JNum (Num.of_Z 50)]> ∅).

(** A command line with one argument, a clock, and a file system that
    decodes every path to [data]. *)
Definition env_of (data : option document) : env :=
  {| argv := ["script.py"; "results.json"];
     timestamp := "20250101_120000";
     read_json := fun _ => data |}.

(** A record of category [freq] with the given success flag. *)
Definition decision (freq : string) (ok : bool) : item :=
  Obj (<["RecommendedFrequency" := JStr freq]>
       (<["Goal" := JStr "g"]> (<["WasSuccessful" := JBool ok]> ∅))).

(** Three immediate records, two of them successful, and two successful
    evolution records. *)
Definition mixed : list item :=
  [decision "immediate" true; decision "evolution" true;
   decision "immediate" false; decision "immediate" true;
   decision "evolution" true].

(** A record of category [freq] with the given execution time. *)
Definition timed (freq time : string) : item :=
  Obj (<["RecommendedFrequency" := JStr freq]>
       (<["Goal" := JStr "g"]> (<["ExecutionTime" := JStr time]> ∅))).


End Sample.

(** * Properties *)

(** ** The Python primitives on examples *)

Example int_examples :
  Str.int "100000" = Ok 100000 /\ Str.int " -1_000 " = Ok (-1000) /\
  Str.int "00" = Ok 0 /\ Str.int "" = Raise ValueError /\
  Str.int "1__0" = Raise ValueError /\ Str.int "_1" = Raise ValueError /\
  Str.int "1_" = Raise ValueError /\ Str.int "+ 1" = Raise ValueError /\
  Str.int "1.5" = Raise ValueError /\ Str.int "0:00:01.5" = Raise ValueError.
Proof. repeat split; reflexivity. Qed.

Example float_examples :
  Str.float "01.5" = Ok (Fin (3 # 2)) /\ Str.float "1e3" = Ok (Fin 1000) /\
  Str.float ".5" = Ok (Fin (1 # 2)) /\ Str.float "5." = Ok (Fin 5) /\
  Str.float "-2.50E-1" = Ok (Fin (- 1 # 4)) /\ Str.float "." = Raise ValueError /\
  Str.float "1e" = Raise ValueError /\ Str.float " Infinity " = Ok (Inf false) /\
  Str.float "-inf" = Ok (Inf true) /\ Str.float "nan" = Ok NaN /\
  Str.float "infin" = Raise ValueError /\ Str.float "1_0.2_5" = Ok (Fin (41 # 4)) /\
  Str.float "1_.5" = Raise ValueError /\ Str.float "" = Raise ValueError /\
  Str.float "1._5" = Raise ValueError /\ Str.float "1e1_0" = Ok (Fin 10000000000) /\
  Str.float "-NaN" = Ok NaN /\ Str.float "iNfInItY" = Ok (Inf false) /\
  Str.float "1e+" = Raise ValueError /\ Str.float ".e5" = Raise ValueError /\
  Str.float "1.e5" = Ok (Fin 100000) /\ Str.float "1 2" = Raise ValueError.
Proof. repeat split; reflexivity. Qed.

Example replace_examples :
  Str.replace " Ticks" "" "100000 Ticks" = "100000" /\
  Str.replace " Ticks" "" "1 Ticks2 Ticks" = "12" /\
  Str.replace " Ticks" "" "7 ticks" = "7 ticks" /\
  Str.replace "aa" "b" "aaa" = "ba".
Proof. repeat split; reflexivity. Qed.

Example split_examples :
  Str.split ":" "0:00:01.5" = ["0"; "00"; "01.5"] /\
  Str.split ":" "" = [""] /\ Str.split ":" "a::" = ["a"; ""; ""] /\
  Str.split ":" "abc" = ["abc"].
Proof. repeat split; reflexivity. Qed.


(** ** The error monad *)

Lemma bind_Ok {A B} (a : A) (k : A -> result B) : (Ok a ≫= k) = k a.
Proof. reflexivity. Qed.

Lemma bind_Raise {A B} (e : exn) (k : A -> result B) : (Raise e ≫= k) = Raise e.
Proof. reflexivity. Qed.

Lemma bind_inv_Ok {A B} (m : result A) (k : A -> result B) (b : B) :
  (m ≫= k) = Ok b -> exists a, m = Ok a /\ k a = Ok b.
Proof. destruct m as [a|e]; [eauto | discriminate]. Qed.

Lemma mapM_Ok_total {A B} (f : A -> B) (l : list A) :
  mapM (fun a => Ok (f a)) l = Ok (map f l).
Proof.
  induction l as [|a l IH]; [reflexivity|].
  cbn. rewrite IH. reflexivity.
Qed.

Lemma mapM_ext_in {A B} (f g : A -> result B) (l : list A) :
  (forall a, a ∈ l -> f a = g a) -> mapM f l = mapM g l.
Proof.
  induction l as [|a l IH]; intros Hfg; [reflexivity|].
  cbn. rewrite (Hfg a) by apply list_elem_of_here.
  rewrite IH; [reflexivity|].
  intros b Hb. apply Hfg. by apply list_elem_of_further.
Qed.

Lemma mapM_Ok_fst {A B} (f : A -> result B) (g : A -> string) (h : B -> string)
    (l : list A) (l' : list B) :
  (forall a b, f a = Ok b -> h b = g a) ->
  mapM f l = Ok l' -> map h l' = map g l.
Proof.
  intros Hfg. revert l'. induction l as [|a l IH]; intros l' H.
  - cbn in H. injection H as <-. reflexivity.
  - cbn in H. destruct (f a) as [b|] eqn:Hb; [|discriminate].
    cbn in H. destruct (mapM f l) as [bs|] eqn:Hbs; [|discriminate].
    cbn in H. injection H as <-. cbn. f_equal; [by apply Hfg | by apply IH].
Qed.

(** ** Dictionaries looked up at a label *)

Section Dictionaries.

Lemma key_eqb_label_r (v : jval) (freq : string) :
  Py.key_eqb v (JStr freq) = true <-> v = JStr freq.
Proof.
  destruct v as [|b|x|s]; cbn; try (split; discriminate).
  rewrite String.eqb_eq. split; [intros ->; reflexivity | congruence].
Qed.

Lemma key_eqb_label_l (v : jval) (freq : string) :
  Py.key_eqb (JStr freq) v = true <-> v = JStr freq.
Proof.
  destruct v as [|b|x|s]; cbn; try (split; discriminate).
  rewrite String.eqb_eq. split; [intros ->; reflexivity | congruence].
Qed.

Context {V : Type}.

Lemma dict_get_update (f : option V -> V) (key : jval) (d : Py.dict V) (freq : string) :
  Py.dict_get (Py.dict_update f key d) (JStr freq) =
  if Py.key_eqb key (JStr freq)
  then Some (f (Py.dict_get d (JStr freq)))
  else Py.dict_get d (JStr freq).
Proof.
  induction d as [|[k v] d IH]; cbn.
  - destruct (Py.key_eqb key (JStr freq)); reflexivity.
  - destruct (Py.key_eqb k key) eqn:Hk; cbn.
    + destruct (Py.key_eqb k (JStr freq)) eqn:Hkf.
      * apply key_eqb_label_r in Hkf. subst k.
        apply key_eqb_label_l in Hk. subst key.
        rewrite (proj2 (key_eqb_label_r _ _) eq_refl). reflexivity.
      * destruct (Py.key_eqb key (JStr freq)) eqn:Hkey; [|reflexivity].
        apply key_eqb_label_r in Hkey. subst key.
        apply key_eqb_label_r in Hk. subst k.
        rewrite (proj2 (key_eqb_label_r _ _) eq_refl) in Hkf. discriminate.
    + destruct (Py.key_eqb k (JStr freq)) eqn:Hkf.
      * destruct (Py.key_eqb key (JStr freq)) eqn:Hkey; [|reflexivity].
        apply key_eqb_label_r in Hkey, Hkf. subst.
        rewrite (proj2 (key_eqb_label_r _ _) eq_refl) in Hk. discriminate.
      * apply IH.
Qed.

End Dictionaries.

Lemma occurrences_cons (freq : string) (v : jval) (vs : list jval) :
  occurrences freq (v :: vs) =
  ((if is_label freq v then 1 else 0) + occurrences freq vs)%nat.
Proof.
  unfold occurrences. rewrite filter_cons.
  destruct (decide (is_label freq v = true)) as [H|H].
  - rewrite H. reflexivity.
  - apply not_true_is_false in H. rewrite H. reflexivity.
Qed.

Lemma occurrences_app (freq : string) (vs ws : list jval) :
  occurrences freq (vs ++ ws) = (occurrences freq vs + occurrences freq ws)%nat.
Proof. unfold occurrences. rewrite filter_app, length_app. reflexivity. Qed.

(** [Counter] counts: looked up at a label, it holds the number of
    occurrences of that label. *)
Lemma Counter_from (freq : string) (xs : list jval) (d : Py.dict nat) :
  default O (Py.dict_get
               (foldl (fun d x => Py.dict_update (fun o => S (default O o)) x d) d xs)
               (JStr freq)) =
  (default O (Py.dict_get d (JStr freq)) + occurrences freq xs)%nat.
Proof.
  revert d. induction xs as [|x xs IH]; intros d.
  - unfold occurrences. cbn. lia.
  - rewrite occurrences_cons. cbn [foldl].
    rewrite IH, dict_get_update. unfold is_label.
    destruct (Py.key_eqb x (JStr freq)); cbn; lia.
Qed.

Lemma Counter_get (freq : string) (xs : list jval) :
  default O (Py.dict_get (Py.Counter xs) (JStr freq)) = occurrences freq xs.
Proof. unfold Py.Counter. rewrite Counter_from. reflexivity. Qed.

(** [group] groups: looked up at a label, it holds the values paired
    with that label, in order. *)
Lemma group_from {V} (freq : string) (ps : list (jval * V)) (d : Py.dict (list V)) :
  default [] (Py.dict_get
                (foldl (fun d kv => Py.dict_update (fun o => default [] o ++ [kv.2]) kv.1 d) d ps)
                (JStr freq)) =
  default [] (Py.dict_get d (JStr freq)) ++
  map snd (filter (fun kv : jval * V => is_label freq kv.1 = true) ps).
Proof.
  revert d. induction ps as [|[k v] ps IH]; intros d.
  - cbn. rewrite app_nil_r. reflexivity.
  - rewrite filter_cons. cbn [foldl fst snd].
    rewrite IH, dict_get_update.
    destruct (Py.key_eqb k (JStr freq)) eqn:Hk.
    + rewrite decide_True by exact Hk. cbn. rewrite <- app_assoc. reflexivity.
    + rewrite decide_False by (unfold is_label; cbn; rewrite Hk; discriminate).
      reflexivity.
Qed.

Lemma group_get {V} (freq : string) (ps : list (jval * V)) :
  default [] (Py.dict_get (Py.group ps) (JStr freq)) =
  map snd (filter (fun kv : jval * V => is_label freq kv.1 = true) ps).
Proof. unfold Py.group. rewrite group_from. reflexivity. Qed.

(** ** What the analysis keeps *)

Lemma kept_app (xs ys : list item) : kept (xs ++ ys) = kept xs ++ kept ys.
Proof. unfold kept. apply omap_app. Qed.

Lemma zip_filter_label {A} (freq : string) (f : A -> jval) {B} (g : A -> B) (l : list A) :
  map snd (filter (fun kv : jval * B => is_label freq kv.1 = true)
             (Py.zip (map f l) (map g l))) =
  map g (filter (fun a => is_label freq (f a) = true) l).
Proof.
  induction l as [|a l IH]; [reflexivity|].
  cbn [map Py.zip combine]. rewrite !filter_cons. cbn [fst].
  destruct (decide (is_label freq (f a) = true)); cbn; rewrite <- IH; reflexivity.
Qed.

Section DashboardFacts.
Import Dashboard.

(** The loop body on an object, by cases on its fields. *)
Lemma dashboard_analyze_item_Obj (res : results) (fields : gmap string jval) :
  analyze_item res (Obj fields) =
  match fields !! "RecommendedFrequency" with
  | None => Ok res
  | Some frequency =>
      let res1 :=
        store res frequency
          (default (JNum (Num.of_Z 0)) (fields !! "EconomicValue"))
          (default (JStr "") (fields !! "Goal"))
          (default (JStr "") (fields !! "Context"))
          (default (JStr "") (fields !! "Timestamp"))
          (default (JBool true) (fields !! "WasSuccessful")) in
      match fields !! "ExecutionTime" with
      | None => Ok res1
      | Some time => ms ← execution_ms time; Ok (store_time res1 ms)
      end
  end.
Proof.
  unfold analyze_item. cbn.
  destruct (fields !! "RecommendedFrequency") as [frequency|]; cbn; [|reflexivity].
  destruct (fields !! "ExecutionTime") as [time|]; cbn; reflexivity.
Qed.

Lemma dashboard_analyze_item_Scalar (res res' : results) (v : jval) :
  analyze_item res (Scalar v) = Ok res' -> res' = res.
Proof.
  unfold analyze_item. destruct v as [|b|x|s]; cbn; try discriminate.
  destruct (Str.contains "RecommendedFrequency" s); cbn; [discriminate|].
  congruence.
Qed.

Lemma dashboard_analyze_from_app (res : results) (xs ys : list item) :
  analyze_from res (xs ++ ys) = (res' ← analyze_from res xs; analyze_from res' ys).
Proof.
  revert res. induction xs as [|x xs IH]; intros res; [reflexivity|].
  cbn. destruct (analyze_item res x) as [res1|e]; cbn; [apply IH | reflexivity].
Qed.

(** Every list of the result, in terms of the kept records. *)
Lemma dashboard_analyze_from_kept (data : list item) (res res' : results) :
  analyze_from res data = Ok res' ->
  sk_frequencies res' = sk_frequencies res ++ (kept data).*1 /\
  sk_economic_values res' = sk_economic_values res ++
    map (fun r => default (JNum (Num.of_Z 0)) (r.2 !! "EconomicValue")) (kept data) /\
  goals res' = goals res ++
    map (fun r => default (JStr "") (r.2 !! "Goal")) (kept data) /\
  contexts res' = contexts res ++
    map (fun r => default (JStr "") (r.2 !! "Context")) (kept data) /\
  timestamps res' = timestamps res ++
    map (fun r => default (JStr "") (r.2 !! "Timestamp")) (kept data) /\
  successful res' = successful res ++
    map (fun r => default (JBool true) (r.2 !! "WasSuccessful")) (kept data) /\
  exists times, mapM execution_ms (times_of (kept data)) = Ok times /\
    sk_processing_times res' = sk_processing_times res ++ times.
Proof.
  revert res. induction data as [|it data IH]; intros res H.
  - cbn in H. injection H as <-. cbn. rewrite !app_nil_r.
    repeat split; try reflexivity. exists []. split; [reflexivity|].
    by rewrite app_nil_r.
  - cbn in H. apply bind_inv_Ok in H as (res1 & Hit & H).
    apply IH in H as (Hf & He & Hg & Hc & Ht & Hs & times & Htimes & Hp).
    destruct it as [fields|v].
    + rewrite dashboard_analyze_item_Obj in Hit. unfold kept, times_of in *. cbn.
      destruct (fields !! "RecommendedFrequency") as [frequency|] eqn:Hfreq; cbn.
      * destruct (fields !! "ExecutionTime") as [time|] eqn:Htime; cbn in Hit |- *.
        -- apply bind_inv_Ok in Hit as (ms & Hms & Hit). injection Hit as <-.
           cbn in *. rewrite Hf, He, Hg, Hc, Ht, Hs, Hp, <- !app_assoc.
           repeat split; try reflexivity.
           exists (ms :: times). rewrite Hms. cbn.
           rewrite Htimes. cbn. split; reflexivity.
        -- injection Hit as <-.
           cbn in *. rewrite Hf, He, Hg, Hc, Ht, Hs, Hp, <- !app_assoc.
           repeat split; try reflexivity.
           exists times. split; [exact Htimes | reflexivity].
      * injection Hit as <-. repeat split; try assumption.
        exists times. split; assumption.
    + apply dashboard_analyze_item_Scalar in Hit. subst res1. unfold kept in *. cbn.
      repeat split; try assumption. exists times. split; assumption.
Qed.

End DashboardFacts.

Section VisualizeFacts.
Import Visualize.

(** The loop body on an object, by cases on its fields. *)
Lemma visualize_analyze_item_Obj (res : results) (fields : gmap string jval) :
  analyze_item res (Obj fields) =
  match fields !! "RecommendedFrequency" with
  | None => Ok res
  | Some frequency =>
      match fields !! "Goal" with
      | None => Raise (KeyError "Goal")
      | Some _ =>
          let res1 :=
            store res frequency
              (default (JNum (Num.of_Z 0)) (fields !! "EconomicValue")) in
          match fields !! "ExecutionTime" with
          | None => Ok res1
          | Some time => ms ← execution_ms time; Ok (store_time res1 ms)
          end
      end
  end.
Proof.
  unfold analyze_item. cbn.
  destruct (fields !! "RecommendedFrequency") as [frequency|]; cbn; [|reflexivity].
  destruct (fields !! "Goal") as [goal|]; cbn; [|reflexivity].
  destruct (fields !! "ExecutionTime") as [time|]; cbn; reflexivity.
Qed.

Lemma visualize_analyze_item_Scalar (res res' : results) (v : jval) :
  analyze_item res (Scalar v) = Ok res' -> res' = res.
Proof.
  unfold analyze_item. destruct v as [|b|x|s]; cbn; try discriminate.
  destruct (Str.contains "RecommendedFrequency" s); cbn; [discriminate|].
  congruence.
Qed.

Lemma visualize_analyze_from_app (res : results) (xs ys : list item) :
  analyze_from res (xs ++ ys) = (res' ← analyze_from res xs; analyze_from res' ys).
Proof.
  revert res. induction xs as [|x xs IH]; intros res; [reflexivity|].
  cbn. destruct (analyze_item res x) as [res1|e]; cbn; [apply IH | reflexivity].
Qed.

(** Every list of the result, in terms of the kept records. *)
Lemma visualize_analyze_from_kept (data : list item) (res res' : results) :
  analyze_from res data = Ok res' ->
  sk_frequencies res' = sk_frequencies res ++ (kept data).*1 /\
  sk_economic_values res' = sk_economic_values res ++
    map (fun r => default (JNum (Num.of_Z 0)) (r.2 !! "EconomicValue")) (kept data) /\
  exists times, mapM execution_ms (times_of (kept data)) = Ok times /\
    sk_processing_times res' = sk_processing_times res ++ times.
Proof.
  revert res. induction data as [|it data IH]; intros res H.
  - cbn in H. injection H as <-. cbn. rewrite !app_nil_r.
    repeat split; try reflexivity. exists []. split; [reflexivity|].
    by rewrite app_nil_r.
  - cbn in H. apply bind_inv_Ok in H as (res1 & Hit & H).
    apply IH in H as (Hf & He & times & Htimes & Hp).
    destruct it as [fields|v].
    + rewrite visualize_analyze_item_Obj in Hit. unfold kept, times_of in *. cbn.
      destruct (fields !! "RecommendedFrequency") as [frequency|] eqn:Hfreq; cbn.
      * destruct (fields !! "Goal") as [goal|]; [|discriminate].
        destruct (fields !! "ExecutionTime") as [time|] eqn:Htime; cbn in Hit |- *.
        -- apply bind_inv_Ok in Hit as (ms & Hms & Hit). injection Hit as <-.
           cbn in *. rewrite Hf, He, Hp, <- !app_assoc.
           repeat split; try reflexivity.
           exists (ms :: times). rewrite Hms. cbn.
           rewrite Htimes. cbn. split; reflexivity.
        -- injection Hit as <-.
           cbn in *. rewrite Hf, He, Hp, <- !app_assoc.
           repeat split; try reflexivity.
           exists times. split; [exact Htimes | reflexivity].
      * injection Hit as <-. repeat split; try assumption.
        exists times. split; assumption.
    + apply visualize_analyze_item_Scalar in Hit. subst res1. unfold kept in *. cbn.
      repeat split; try assumption. exists times. split; assumption.
Qed.

End VisualizeFacts.

(** ** Counting over the five labels *)

Lemma is_fixed_label_JStr (v : jval) :
  is_fixed_label v = true <-> exists freq, freq ∈ frequencies /\ v = JStr freq.
Proof.
  unfold is_fixed_label. rewrite existsb_exists. split.
  - intros (freq & Hin & Hl). exists freq. split.
    + by apply list_elem_of_In.
    + by apply key_eqb_label_r.
  - intros (freq & Hin & ->). exists freq. split.
    + by apply list_elem_of_In.
    + by apply key_eqb_label_r.
Qed.

(** Each value is counted under at most one label, and under one exactly
    when it is one of the five. *)
Lemma occurrences_five (vs : list jval) :
  sum_list (map (fun freq => occurrences freq vs) frequencies) =
  length (filter (fun v => is_fixed_label v = true) vs).
Proof.
  induction vs as [|v vs IH]; [reflexivity|].
  rewrite filter_cons. unfold frequencies in *. cbn [map sum_list] in *.
  rewrite !occurrences_cons.
  assert (Hone : ((if is_label "immediate" v then 1 else 0) +
                  (if is_label "continuous" v then 1 else 0) +
                  (if is_label "analysis" v then 1 else 0) +
                  (if is_label "optimization" v then 1 else 0) +
                  (if is_label "evolution" v then 1 else 0))%nat =
                 if is_fixed_label v then 1%nat else 0%nat).
  { unfold is_fixed_label, is_label. destruct v as [|b|x|s]; try reflexivity.
    cbn [existsb frequencies Py.key_eqb].
    destruct (String.eqb s "immediate") eqn:H1;
      [apply String.eqb_eq in H1; subst; reflexivity|].
    destruct (String.eqb s "continuous") eqn:H2;
      [apply String.eqb_eq in H2; subst; reflexivity|].
    destruct (String.eqb s "analysis") eqn:H3;
      [apply String.eqb_eq in H3; subst; reflexivity|].
    destruct (String.eqb s "optimization") eqn:H4;
      [apply String.eqb_eq in H4; subst; reflexivity|].
    destruct (String.eqb s "evolution") eqn:H5; reflexivity. }
  unfold id in *.
  destruct (decide (is_fixed_label v = true)) as [Hv|Hv].
  - rewrite Hv in Hone. cbn [length]. lia.
  - apply not_true_is_false in Hv. rewrite Hv in Hone. lia.
Qed.

Lemma counts_of_Counter (vs : list jval) :
  counts_of (Py.Counter vs) = map (fun freq => occurrences freq vs) frequencies.
Proof.
  unfold counts_of. apply map_ext. intros freq. apply Counter_get.
Qed.

Lemma zip_frequencies_fst {A} (l : list A) :
  length l = 5%nat -> (Py.zip frequencies l).*1 = frequencies.
Proof.
  intros H. do 6 (try destruct l as [|? l]); try discriminate. reflexivity.
Qed.

Lemma zip_frequencies_snd {A} (l : list A) :
  length l = 5%nat -> (Py.zip frequencies l).*2 = l.
Proof.
  intros H. do 6 (try destruct l as [|? l]); try discriminate. reflexivity.
Qed.

Lemma counts_of_length (d : Py.dict nat) : length (counts_of d) = 5%nat.
Proof. reflexivity. Qed.

Lemma elem_of_le_sum_list (x : nat) (l : list nat) : x ∈ l -> (x <= sum_list l)%nat.
Proof.
  induction 1 as [x l|x y l _ IH]; cbn; lia.
Qed.

Lemma div_int_Ok (x : num) (n : Z) : n <> 0 -> Num.div_int x n = Ok (Num.quot x n).
Proof. destruct n; [congruence | reflexivity | reflexivity]. Qed.

(** The percentage annotations never divide by zero: a bar with a
    positive height makes the total positive. *)
Lemma percentage_labels_Ok (counts : list nat) :
  mapM (fun bar : string * nat =>
          ratio ← Num.div_int (Num.of_nat bar.2) (Z.of_nat (sum_list counts));
          Ok (bar.1, Num.mul_int ratio 100))
       (filter (fun bar => (0 < bar.2)%nat) (Py.zip frequencies counts)) =
  Ok (map (fun bar : string * nat =>
             (bar.1, Num.mul_int (Num.quot (Num.of_nat bar.2)
                                    (Z.of_nat (sum_list counts))) 100))
          (filter (fun bar => (0 < bar.2)%nat) (Py.zip frequencies counts))).
Proof.
  rewrite <- mapM_Ok_total. apply mapM_ext_in.
  intros [name count] Hin. apply list_elem_of_filter in Hin as [Hpos Hin].
  assert (count ∈ counts) as Hc.
  { apply list_elem_of_In. apply list_elem_of_In in Hin.
    exact (in_combine_r frequencies counts name count Hin). }
  apply elem_of_le_sum_list in Hc. cbn [fst snd] in *.
  rewrite div_int_Ok by lia. reflexivity.
Qed.

(** ** C1: the five counts and the number of qualifying records *)

Lemma filter_all {A} (P : A -> Prop) `{forall a, Decision (P a)} (l : list A) :
  Forall P l -> filter P l = l.
Proof.
  induction 1 as [|a l Ha _ IH]; [reflexivity|].
  rewrite filter_cons, decide_True by done. by rewrite IH.
Qed.

(** C1, as the code has it: in both scripts the five counts shown by the
    frequency chart, taken in the fixed order, add up to the number of
    qualifying records whose frequency is one of the five labels; they add
    up to the number of all qualifying records when every qualifying
    record carries one of the five labels. *)
Theorem frequency_counts_sum (data : list item) :
  (forall res, Dashboard.analyze_data data = Ok res ->
     exists chart, Dashboard.create_frequency_chart res = Ok chart /\
       (bars chart).*1 = frequencies /\
       sum_list (bars chart).*2 =
         length (filter (fun r => is_fixed_label r.1 = true) (kept data))) /\
  (forall res, Visualize.analyze_data data = Ok res ->
     exists chart, Visualize.create_frequency_distribution res = Ok chart /\
       (bars chart).*1 = frequencies /\
       sum_list (bars chart).*2 =
         length (filter (fun r => is_fixed_label r.1 = true) (kept data))) /\
  (Forall (fun r => is_fixed_label r.1 = true) (kept data) ->
     length (filter (fun r => is_fixed_label r.1 = true) (kept data)) =
     length (kept data)).
Proof.
  assert (Hsum : forall records : list (jval * gmap string jval),
             sum_list (counts_of (Py.Counter (records.*1))) =
             length (filter (fun r : jval * gmap string jval =>
                               is_fixed_label r.1 = true) records)).
  { intros records. rewrite counts_of_Counter, occurrences_five.
    induction records as [|r records IH]; [reflexivity|].
    cbn [fmap list_fmap]. rewrite !filter_cons.
    destruct (decide (is_fixed_label r.1 = true)); cbn [length]; rewrite IH; reflexivity. }
  split; [|split].
  - intros res H. apply dashboard_analyze_from_kept in H as (Hf & _).
    cbn in Hf. unfold Dashboard.create_frequency_chart.
    rewrite percentage_labels_Ok. cbn [mbind result_bind].
    eexists. split; [reflexivity|]. cbn [bars].
    rewrite zip_frequencies_fst, zip_frequencies_snd by apply counts_of_length.
    split; [reflexivity|]. rewrite Hf. apply Hsum.
  - intros res H. apply visualize_analyze_from_kept in H as (Hf & _).
    cbn in Hf. unfold Visualize.create_frequency_distribution.
    rewrite percentage_labels_Ok. cbn [mbind result_bind].
    eexists. split; [reflexivity|]. cbn [bars].
    rewrite zip_frequencies_fst, zip_frequencies_snd by apply counts_of_length.
    split; [reflexivity|]. rewrite Hf. apply Hsum.
  - intros H. by rewrite filter_all.
Qed.

Lemma frequency_counts_sum_witness :
  (exists chart, Dashboard.create_frequency_chart
                   {| Dashboard.sk_frequencies := [JStr "weekly"; JStr "immediate"];
                      Dashboard.sk_economic_values := [JNum (Fin 0); JNum (Fin 0)];
                      Dashboard.sk_processing_times := [];
                      Dashboard.goals := [JStr "g"; JStr "g"];
                      Dashboard.contexts := [JStr ""; JStr ""];
                      Dashboard.timestamps := [JStr ""; JStr ""];
                      Dashboard.successful := [JBool true; JBool true] |} = Ok chart /\
     (bars chart).*1 = frequencies /\
     sum_list (bars chart).*2 =
       length (filter (fun r => is_fixed_label r.1 = true)
                 (kept [Sample.weekly; Sample.immediate]))) /\
  (exists chart, Visualize.create_frequency_distribution
                   {| Visualize.sk_frequencies := [JStr "weekly"; JStr "immediate"];
                      Visualize.sk_economic_values := [JNum (Fin 0); JNum (Fin 0)];
                      Visualize.sk_processing_times := [] |} = Ok chart /\
     (bars chart).*1 = frequencies /\
     sum_list (bars chart).*2 =
       length (filter (fun r => is_fixed_label r.1 = true)
                 (kept [Sample.weekly; Sample.immediate]))) /\
  length (filter (fun r => is_fixed_label r.1 = true) (kept [Sample.immediate])) =
  length (kept [Sample.immediate]).
Proof.
  split; [|split].
  - apply (proj1 (frequency_counts_sum [Sample.weekly; Sample.immediate])).
    vm_compute. reflexivity.
  - apply (proj1 (proj2 (frequency_counts_sum [Sample.weekly; Sample.immediate]))).
    vm_compute. reflexivity.
  - apply (proj2 (proj2 (frequency_counts_sum [Sample.immediate]))).
    repeat constructor.
Defined.

(** C1, as stated, fails: one qualifying record labelled ["weekly"] is
    kept by both analyses and counted under none of the five categories. *)
Lemma frequency_counts_miss_other_labels :
  length (kept [Sample.weekly]) = 1%nat /\
  (exists res chart,
     Dashboard.analyze_data [Sample.weekly] = Ok res /\
     Dashboard.create_frequency_chart res = Ok chart /\
     sum_list (bars chart).*2 = 0%nat) /\
  (exists res chart,
     Visualize.analyze_data [Sample.weekly] = Ok res /\
     Visualize.create_frequency_distribution res = Ok chart /\
     sum_list (bars chart).*2 = 0%nat).
Proof.
  split; [reflexivity|].
  split; do 2 eexists; (split; [vm_compute; reflexivity|]);
    (split; [vm_compute; reflexivity|]); reflexivity.
Qed.

(** ** C5: records without the frequency field *)

(** C5: an object without the [RecommendedFrequency] field leaves the
    aggregation of both scripts as it is without it, wherever it stands in
    the input: the same kept records, the same analysis result, hence the
    same dashboard (counts, means, success rates, sample table) and the
    same pictures. *)
Theorem record_without_frequency_is_skipped
    (pre post : list item) (fields : gmap string jval) (output : string) :
  fields !! "RecommendedFrequency" = None ->
  kept (pre ++ Obj fields :: post) = kept (pre ++ post) /\
  Dashboard.analyze_data (pre ++ Obj fields :: post) =
    Dashboard.analyze_data (pre ++ post) /\
  Visualize.analyze_data (pre ++ Obj fields :: post) =
    Visualize.analyze_data (pre ++ post) /\
  (res ← Dashboard.analyze_data (pre ++ Obj fields :: post);
   Dashboard.generate_html_dashboard res output) =
  (res ← Dashboard.analyze_data (pre ++ post);
   Dashboard.generate_html_dashboard res output) /\
  (res ← Visualize.analyze_data (pre ++ Obj fields :: post);
   Ok (Visualize.create_visualizations res output)) =
  (res ← Visualize.analyze_data (pre ++ post);
   Ok (Visualize.create_visualizations res output)).
Proof.
  intros Hnone.
  assert (Hk : kept (pre ++ Obj fields :: post) = kept (pre ++ post)).
  { rewrite !kept_app. f_equal. unfold kept. cbn. rewrite Hnone. reflexivity. }
  assert (Hd : Dashboard.analyze_data (pre ++ Obj fields :: post) =
               Dashboard.analyze_data (pre ++ post)).
  { unfold Dashboard.analyze_data. rewrite !dashboard_analyze_from_app.
    destruct (Dashboard.analyze_from Dashboard.empty_results pre) as [res|e];
      [|reflexivity].
    cbn [mbind result_bind Dashboard.analyze_from].
    rewrite dashboard_analyze_item_Obj, Hnone. reflexivity. }
  assert (Hv : Visualize.analyze_data (pre ++ Obj fields :: post) =
               Visualize.analyze_data (pre ++ post)).
  { unfold Visualize.analyze_data. rewrite !visualize_analyze_from_app.
    destruct (Visualize.analyze_from Visualize.empty_results pre) as [res|e];
      [|reflexivity].
    cbn [mbind result_bind Visualize.analyze_from].
    rewrite visualize_analyze_item_Obj, Hnone. reflexivity. }
  rewrite Hd, Hv. repeat split; assumption || reflexivity.
Qed.

Lemma record_without_frequency_is_skipped_witness :
  Dashboard.analyze_data [Sample.immediate; Obj Sample.no_frequency; Sample.weekly] =
  Dashboard.analyze_data [Sample.immediate; Sample.weekly].
Proof.
  apply (record_without_frequency_is_skipped
           [Sample.immediate] [Sample.weekly] Sample.no_frequency "out").
  vm_compute. reflexivity.
Defined.

(** ** C9: a document that is false *)

(** C9: when the input file is read and decoded and the decoded value is
    false in Python's sense (the empty array among others), both scripts
    print the could-not-load line, write nothing and exit with status 1;
    a run in which loading fails differs only by the extra error line
    printed by [load_data]. *)
Theorem falsy_document_exits_like_load_failure
    (e e' : env) (script input_file : string) (rest : list string) (data : document) :
  argv e = script :: input_file :: rest ->
  read_json e input_file = Some data ->
  Py.truthy_document data = false ->
  argv e' = argv e ->
  read_json e' input_file = None ->
  Dashboard.main e =
    {| stdout := [CouldNotLoadDataFrom input_file]; written := []; ended := Exit 1 |} /\
  Visualize.main e =
    {| stdout := [CouldNotLoadDataFrom input_file]; written := []; ended := Exit 1 |} /\
  Dashboard.main e' =
    {| stdout := [ErrorLoadingData; CouldNotLoadDataFrom input_file];
       written := []; ended := Exit 1 |} /\
  Visualize.main e' =
    {| stdout := [ErrorLoadingData; CouldNotLoadDataFrom input_file];
       written := []; ended := Exit 1 |}.
Proof.
  intros Hargv Hread Hfalsy Hargv' Hread'.
  unfold Dashboard.main, Visualize.main, load_data.
  rewrite Hargv', Hargv, Hread, Hread', Hfalsy. cbn. repeat split.
Qed.

Lemma falsy_document_exits_like_load_failure_witness :
  Py.truthy_document (DArray []) = false /\
  Dashboard.main (Sample.env_of (Some (DArray []))) =
    {| stdout := [CouldNotLoadDataFrom "results.json"]; written := []; ended := Exit 1 |} /\
  Visualize.main (Sample.env_of (Some (DArray []))) =
    {| stdout := [CouldNotLoadDataFrom "results.json"]; written := []; ended := Exit 1 |}.
Proof.
  split; [reflexivity|].
  pose proof (falsy_document_exits_like_load_failure
                (Sample.env_of (Some (DArray []))) (Sample.env_of None)
                "script.py" "results.json" [] (DArray [])
                eq_refl eq_refl eq_refl eq_refl eq_refl) as (Hd & Hv & _).
  split; assumption.
Defined.

(** ** C10: a kept record without a goal *)

(** C10: on an object that has the frequency field and no [Goal] field,
    the analysis of the visualization script raises [KeyError] for
    [Goal], and nothing in [main] catches it, while the analysis of the
    dashboard script stores the empty string as the goal whenever it
    returns, and it returns when the object has no execution time. *)
Theorem missing_goal_raises_in_visualization_only
    (fields : gmap string jval) (frequency : jval) (e : env)
    (script input_file : string) (rest : list string) :
  fields !! "RecommendedFrequency" = Some frequency ->
  fields !! "Goal" = None ->
  argv e = script :: input_file :: rest ->
  read_json e input_file = Some (DArray [Obj fields]) ->
  Visualize.analyze_data [Obj fields] = Raise (KeyError "Goal") /\
  Visualize.main e =
    {| stdout := []; written := []; ended := Uncaught (KeyError "Goal") |} /\
  (forall res, Dashboard.analyze_data [Obj fields] = Ok res ->
     Dashboard.goals res = [JStr ""]) /\
  (fields !! "ExecutionTime" = None ->
     exists res, Dashboard.analyze_data [Obj fields] = Ok res).
Proof.
  intros Hfreq Hgoal Hargv Hread.
  assert (Hv : Visualize.analyze_data [Obj fields] = Raise (KeyError "Goal")).
  { unfold Visualize.analyze_data. cbn [Visualize.analyze_from].
    rewrite visualize_analyze_item_Obj, Hfreq, Hgoal. reflexivity. }
  split; [exact Hv|]. split; [|split].
  - unfold Visualize.main, load_data. rewrite Hargv, Hread. cbn [Py.truthy_document negb].
    cbn [iterate mbind result_bind]. rewrite Hv. reflexivity.
  - intros res H. apply dashboard_analyze_from_kept in H as (_ & _ & Hg & _).
    rewrite Hg. unfold kept. cbn. rewrite Hfreq. cbn. rewrite Hgoal. reflexivity.
  - intros Htime. unfold Dashboard.analyze_data. cbn [Dashboard.analyze_from].
    rewrite dashboard_analyze_item_Obj, Hfreq, Htime. cbn. eauto.
Qed.

Lemma missing_goal_raises_in_visualization_only_witness :
  Visualize.analyze_data [Obj Sample.no_goal] = Raise (KeyError "Goal") /\
  exists res, Dashboard.analyze_data [Obj Sample.no_goal] = Ok res /\
              Dashboard.goals res = [JStr ""].
Proof.
  pose proof (missing_goal_raises_in_visualization_only
                Sample.no_goal (JStr "evolution")
                (Sample.env_of (Some (DArray [Obj Sample.no_goal])))
                "script.py" "results.json" []
                eq_refl eq_refl eq_refl eq_refl) as (Hv & _ & Hgoals & Hok).
  split; [exact Hv|].
  destruct (Hok eq_refl) as [res Hres]. exists res. split; [exact Hres|].
  apply Hgoals. exact Hres.
Defined.

(** ** C8: no qualifying record *)

(** C8: when no element of the input qualifies (each is an object without
    the frequency field, or a string that does not contain its name), both
    analyses return the empty aggregate and both renderers finish without
    an exception.  The dashboard shows zero for the total, the averages,
    the success rate and every count and percentage, with no sample row,
    and only its processing-time chart is missing; the visualization
    writes the frequency chart and the summary, all at zero, and skips the
    box plot (with a notice) and the processing-time chart. *)
Theorem empty_aggregate_renders_zeros (data : list item) (output : string) :
  Forall (fun it => Py.contains it "RecommendedFrequency" = Ok false) data ->
  kept data = [] /\
  Dashboard.analyze_data data = Ok Dashboard.empty_results /\
  Dashboard.generate_html_dashboard Dashboard.empty_results output =
    Ok (output, zero_dashboard) /\
  Visualize.analyze_data data = Ok Visualize.empty_results /\
  Visualize.create_visualizations Visualize.empty_results output =
    {| stdout := [NoEconomicValueData; VisualizationsSavedTo output];
       written := zero_pictures output;
       ended := Finished |}.
Proof.
  intros Hall. split; [|split; [|split; [|split]]].
  - induction Hall as [|it data Hit _ IH]; [reflexivity|].
    unfold kept in *. cbn. destruct it as [fields|v]; [|exact IH].
    cbn in Hit. injection Hit as Hit. apply bool_decide_eq_false in Hit.
    cbn. destruct (fields !! "RecommendedFrequency"); [|exact IH].
    exfalso. apply Hit. eauto.
  - unfold Dashboard.analyze_data.
    induction Hall as [|it data Hit _ IH]; [reflexivity|].
    cbn [Dashboard.analyze_from]. unfold Dashboard.analyze_item.
    rewrite Hit. exact IH.
  - reflexivity.
  - unfold Visualize.analyze_data.
    induction Hall as [|it data Hit _ IH]; [reflexivity|].
    cbn [Visualize.analyze_from]. unfold Visualize.analyze_item.
    rewrite Hit. exact IH.
  - reflexivity.
Qed.

Lemma empty_aggregate_renders_zeros_witness :
  Dashboard.main (Sample.env_of (Some (DArray [Obj Sample.no_frequency]))) =
    {| stdout := [DashboardGenerated "sk_router_dashboard_20250101_120000.html"];
       written := [("sk_router_dashboard_20250101_120000.html", zero_dashboard)];
       ended := Finished |} /\
  Visualize.main (Sample.env_of (Some (DArray [Obj Sample.no_frequency]))) =
    {| stdout := [NoEconomicValueData;
                  VisualizationsSavedTo "benchmark_visualizations_20250101_120000"];
       written := zero_pictures "benchmark_visualizations_20250101_120000";
       ended := Finished |}.
Proof.
  assert (Hall : Forall (fun it => Py.contains it "RecommendedFrequency" = Ok false)
                   [Obj Sample.no_frequency]).
  { repeat constructor. }
  split.
  - destruct (empty_aggregate_renders_zeros
                [Obj Sample.no_frequency]
                "sk_router_dashboard_20250101_120000.html" Hall)
      as (_ & Ha & Hr & _).
    unfold Dashboard.main, load_data, Sample.env_of.
    cbn [argv read_json timestamp Py.truthy_document negb iterate mbind result_bind].
    rewrite Ha. cbn [mbind result_bind].
    change (String.append "sk_router_dashboard_" (String.append "20250101_120000" ".html"))
      with "sk_router_dashboard_20250101_120000.html".
    rewrite Hr. reflexivity.
  - destruct (empty_aggregate_renders_zeros
                [Obj Sample.no_frequency]
                "benchmark_visualizations_20250101_120000" Hall)
      as (_ & _ & _ & Ha & Hr).
    unfold Visualize.main, load_data, Sample.env_of.
    cbn [argv read_json timestamp Py.truthy_document negb iterate mbind result_bind].
    rewrite Ha. cbn [mbind result_bind].
    change (String.append "benchmark_visualizations" (String.append "_" "20250101_120000"))
      with "benchmark_visualizations_20250101_120000".
    rewrite Hr. reflexivity.
Defined.

(** ** C7: success rates *)

Section Rates.

Local Open Scope Q_scope.

Lemma Qred_inject_Z (z : Z) : Qred (inject_Z z) = inject_Z z.
Proof.
  apply Qred_identity. cbn. apply Z.gcd_1_r.
Qed.

Lemma add_of_Z (a b : Z) : Num.add (Num.of_Z a) (Num.of_Z b) = Num.of_Z (a + b).
Proof.
  unfold Num.add, Num.of_Z. f_equal.
  rewrite <- (Qred_inject_Z (a + b)). apply Qred_complete.
  rewrite inject_Z_plus. reflexivity.
Qed.

(** The number of [true] among booleans. *)
Lemma sum_of_bools (bs : list bool) (a : Z) :
  foldl Num.add (Num.of_Z a) (map Num.of_bool bs) =
  Num.of_Z (a + Z.of_nat (length (filter (fun b => b = true) bs))).
Proof.
  revert a. induction bs as [|b bs IH]; intros a.
  - cbn. f_equal. lia.
  - cbn [map foldl]. rewrite filter_cons. destruct b; cbn [Num.of_bool].
    + rewrite add_of_Z, IH, decide_True by done. f_equal. cbn [length]. lia.
    + rewrite add_of_Z, IH, decide_False by done. f_equal. lia.
Qed.

Lemma flags_are_bools (flags : list jval) :
  Forall is_flag flags -> exists bs, flags = map JBool bs.
Proof.
  induction 1 as [|v flags [b ->] _ [bs ->]].
  - exists []. reflexivity.
  - exists (b :: bs). reflexivity.
Qed.

Lemma true_flags_of_bools (bs : list bool) :
  length (filter (fun v => is_true_flag v = true) (map JBool bs)) =
  length (filter (fun b => b = true) bs).
Proof.
  induction bs as [|b bs IH]; [reflexivity|].
  cbn [map]. rewrite !filter_cons. cbn [is_true_flag].
  destruct (decide (b = true)); cbn [length]; rewrite IH; reflexivity.
Qed.

Lemma sum_flags (bs : list bool) :
  Py.sum (map JBool bs) =
  Ok (Num.of_Z (Z.of_nat (length (filter (fun b => b = true) bs)))).
Proof.
  unfold Py.sum.
  assert (H : mapM (fun v => match Py.as_num v with
                             | Some x => Ok x
                             | None => Raise TypeError
                             end) (map JBool bs) = Ok (map Num.of_bool bs)).
  { induction bs as [|b bs IH]; [reflexivity|].
    cbn [map mapM]. cbn [Py.as_num mbind result_bind]. rewrite IH. reflexivity. }
  rewrite H. cbn [mbind result_bind]. unfold Num.sum.
  rewrite sum_of_bools. reflexivity.
Qed.

Lemma filter_length_le {A} (P : A -> Prop) `{forall a, Decision (P a)} (l : list A) :
  (length (filter P l) <= length l)%nat.
Proof.
  induction l as [|a l IH]; [reflexivity|].
  rewrite filter_cons. destruct (decide (P a)); cbn; lia.
Qed.

(** The percentage of [k] out of a positive [n], with [k <= n]. *)
Lemma percentage_bounds (k n : nat) :
  (0 < n)%nat -> (k <= n)%nat ->
  0 <= inject_Z (Z.of_nat k) / inject_Z (Z.of_nat n) * 100 /\
  inject_Z (Z.of_nat k) / inject_Z (Z.of_nat n) * 100 <= 100.
Proof.
  intros Hn Hk.
  destruct (Z.of_nat n) as [|p|p] eqn:Hp; try lia.
  unfold Qdiv, Qinv, Qmult, Qle, inject_Z. cbn. split; nia.
Qed.

(** [rate] on boolean flags: the share of [true], as a percentage. *)
Lemma rate_of_flags (flags : list jval) :
  flags <> [] -> Forall is_flag flags ->
  exists x, Dashboard.rate flags = Ok x /\
    is_rate (length (filter (fun v => is_true_flag v = true) flags)) (length flags) x.
Proof.
  intros Hne Hflags. destruct (flags_are_bools flags Hflags) as [bs ->].
  unfold Dashboard.rate. rewrite sum_flags. cbn [mbind result_bind].
  rewrite true_flags_of_bools, length_map.
  assert (Hlen : (0 < length bs)%nat).
  { destruct bs; [exfalso; apply Hne; reflexivity | cbn; lia]. }
  rewrite div_int_Ok by lia. cbn [mbind result_bind].
  eexists. split; [reflexivity|].
  unfold is_rate. destruct (length bs) as [|n] eqn:Hn; [lia|].
  eexists. split; [reflexivity|].
  assert (Heq : Qred (Qred (inject_Z (Z.of_nat (length (filter (fun b => b = true) bs)))
                            / inject_Z (Z.of_nat (S n))) * inject_Z 100) ==
                inject_Z (Z.of_nat (length (filter (fun b => b = true) bs)))
                / inject_Z (Z.of_nat (S n)) * 100).
  { rewrite Qred_correct, Qred_correct. reflexivity. }
  split; [exact Heq|]. rewrite Heq.
  apply percentage_bounds; [lia|]. rewrite <- Hn. apply filter_length_le.
Qed.

End Rates.

Lemma mapM_Forall2 {A B} (f : A -> result B) (P : A -> B -> Prop) (l : list A) :
  (forall a, a ∈ l -> exists b, f a = Ok b /\ P a b) ->
  exists bs, mapM f l = Ok bs /\ Forall2 P l bs.
Proof.
  induction l as [|a l IH]; intros H.
  - exists []. split; [reflexivity | constructor].
  - destruct (H a) as (b & Hb & HP); [apply list_elem_of_here|].
    destruct IH as (bs & Hbs & HPs).
    { intros a' Ha'. apply H. by apply list_elem_of_further. }
    exists (b :: bs). split; [|by constructor].
    cbn. rewrite Hb. cbn. rewrite Hbs. reflexivity.
Qed.

Lemma Forall2_zip {A B} (P : A -> B -> Prop) (l : list A) (bs : list B) :
  Forall2 P l bs ->
  (Py.zip l bs).*1 = l /\
  Forall2 (fun a (bar : A * B) => bar.1 = a /\ P a bar.2) l (Py.zip l bs).
Proof.
  unfold Py.zip.
  induction 1 as [|a b l bs HP _ [IH1 IH2]]; [split; [reflexivity | constructor]|].
  cbn [combine]. rewrite fmap_cons, IH1. split; [reflexivity|].
  constructor; [by split | exact IH2].
Qed.

(** C7: when the success flags of the kept records are booleans, the
    success-rate chart of the dashboard shows, for each of the five
    categories in order, the number of its records flagged [true] over the
    number of its records, times 100, a value between 0 and 100; a
    category without records shows 0. *)
Theorem success_rate_per_category (data : list item) (res : Dashboard.results) :
  Dashboard.analyze_data data = Ok res ->
  Forall (fun r : jval * gmap string jval =>
            is_flag (default (JBool true) (r.2 !! "WasSuccessful"))) (kept data) ->
  exists chart,
    Dashboard.create_success_rate_chart res = Ok chart /\
    (value_bars chart).*1 = frequencies /\
    Forall2 (fun freq (bar : string * num) =>
               bar.1 = freq /\
               is_rate
                 (length (filter (fun v => is_true_flag v = true)
                            (field_of_category freq "WasSuccessful" (JBool true) (kept data))))
                 (length (field_of_category freq "WasSuccessful" (JBool true) (kept data)))
                 bar.2)
            frequencies (value_bars chart).
Proof.
  intros Hres Hflags.
  apply dashboard_analyze_from_kept in Hres as (Hf & _ & _ & _ & _ & Hs & _).
  cbn [Dashboard.empty_results Dashboard.sk_frequencies Dashboard.successful app] in Hf, Hs.
  unfold Dashboard.create_success_rate_chart. rewrite Hf, Hs.
  destruct (mapM_Forall2
              (fun freq =>
                 match default [] (Py.dict_get
                                     (Py.group (Py.zip ((kept data).*1)
                                        (map (fun r : jval * gmap string jval =>
                                                default (JBool true) (r.2 !! "WasSuccessful"))
                                             (kept data)))) (JStr freq)) with
                 | [] => Ok (Num.of_Z 0)
                 | successes => Dashboard.rate successes
                 end)
              (fun freq x =>
                 is_rate
                   (length (filter (fun v => is_true_flag v = true)
                              (field_of_category freq "WasSuccessful" (JBool true) (kept data))))
                   (length (field_of_category freq "WasSuccessful" (JBool true) (kept data)))
                   x)
              frequencies) as (rates & Hrates & Hall).
  { intros freq _. rewrite group_get.
    change ((kept data).*1) with (map fst (kept data)).
    rewrite zip_filter_label.
    change (map _ (filter _ (kept data)))
      with (field_of_category freq "WasSuccessful" (JBool true) (kept data)).
    assert (Hsub : Forall is_flag
                     (field_of_category freq "WasSuccessful" (JBool true) (kept data))).
    { unfold field_of_category. apply Forall_map.
      apply Forall_forall. intros r Hr.
      apply list_elem_of_filter in Hr as [_ Hr].
      revert r Hr. apply Forall_forall. exact Hflags. }
    destruct (field_of_category freq "WasSuccessful" (JBool true) (kept data))
      as [|v flags] eqn:Hcat.
    - exists (Num.of_Z 0). split; reflexivity.
    - apply rate_of_flags; [discriminate | exact Hsub]. }
  rewrite Hrates. cbn [mbind result_bind].
  eexists. split; [reflexivity|]. cbn [value_bars].
  apply Forall2_zip in Hall as [H1 H2]. split; assumption.
Qed.

Lemma success_rate_per_category_witness :
  exists res, Dashboard.analyze_data Sample.mixed = Ok res /\
  exists chart,
    Dashboard.create_success_rate_chart res = Ok chart /\
    (value_bars chart).*1 = frequencies /\
    Forall2 (fun freq (bar : string * num) =>
               bar.1 = freq /\
               is_rate
                 (length (filter (fun v => is_true_flag v = true)
                            (field_of_category freq "WasSuccessful" (JBool true)
                               (kept Sample.mixed))))
                 (length (field_of_category freq "WasSuccessful" (JBool true)
                            (kept Sample.mixed)))
                 bar.2)
            frequencies (value_bars chart).
Proof.
  eexists. split; [vm_compute; reflexivity|].
  apply (success_rate_per_category Sample.mixed); [vm_compute; reflexivity|].
  vm_compute. repeat (constructor; [eexists; reflexivity|]). constructor.
Defined.

(** The mixed input of the specification: three immediate records of which
    two succeeded, two evolution records that both succeeded. *)
Example mixed_input_rates :
  (res ← Dashboard.analyze_data Sample.mixed;
   chart ← Dashboard.create_success_rate_chart res;
   Ok (value_bars chart)) =
  Ok [("immediate", Fin (200 # 3)); ("continuous", Fin 0); ("analysis", Fin 0);
      ("optimization", Fin 0); ("evolution", Fin 100)] /\
  (res ← Dashboard.analyze_data Sample.mixed;
   chart ← Dashboard.create_frequency_chart res;
   Ok (bars chart, percentage_labels chart)) =
  Ok ([("immediate", 3%nat); ("continuous", 0%nat); ("analysis", 0%nat);
       ("optimization", 0%nat); ("evolution", 2%nat)],
      [("immediate", Fin 60); ("evolution", Fin 40)]).
Proof. split; vm_compute; reflexivity. Qed.

(** ** C4: the two execution-time formats *)

(** C4, as the code has it: the dashboard script tries the tick format
    first and the colon format second, turning ["100000 Ticks"] into 10
    milliseconds and ["0:00:01.5"] into 1500 milliseconds; the
    visualization script reads the tick format only, turning
    ["100000 Ticks"] into 10 milliseconds, and whatever does not read as a
    tick count is an error there.  The general statements hold for
    strings within the digit limit of [int] whose numbers are within the
    range of binary64: a tick count gives its ten-thousandth in both
    scripts; in the dashboard script a string that is not a tick count and
    has three parts between colons gives hours*3600 + minutes*60 +
    seconds, times 1000. *)
Theorem execution_time_formats :
  Dashboard.execution_ms (JStr "100000 Ticks") = Ok (Fin 10) /\
  Dashboard.execution_ms (JStr "0:00:01.5") = Ok (Fin 1500) /\
  Visualize.execution_ms (JStr "100000 Ticks") = Ok (Fin 10) /\
  (forall s ticks,
     (String.length s <= int_max_str_digits)%nat ->
     Str.int (Str.replace " Ticks" "" s) = Ok ticks ->
     in_float_range (inject_Z ticks / 10000) ->
     exists x,
       Dashboard.execution_ms (JStr s) = Ok (Fin x) /\
       Visualize.execution_ms (JStr s) = Ok (Fin x) /\
       (x == inject_Z ticks / 10000)%Q) /\
  (forall s e hours minutes seconds h m sec,
     (String.length s <= int_max_str_digits)%nat ->
     Str.int (Str.replace " Ticks" "" s) = Raise e ->
     Str.split ":" s = [hours; minutes; seconds] ->
     Str.int hours = Ok h ->
     Str.int minutes = Ok m ->
     Str.float seconds = Ok (Fin sec) ->
     in_float_range (inject_Z (h * 3600 + m * 60)) ->
     in_float_range sec ->
     in_float_range (inject_Z (h * 3600 + m * 60) + sec) ->
     in_float_range ((inject_Z (h * 3600 + m * 60) + sec) * 1000) ->
     exists x,
       Dashboard.execution_ms (JStr s) = Ok (Fin x) /\
       (x == (inject_Z (h * 3600 + m * 60) + sec) * 1000)%Q) /\
  (forall s e,
     Str.int (Str.replace " Ticks" "" s) = Raise e ->
     Visualize.execution_ms (JStr s) = Raise e).
Proof.
  split; [reflexivity|]. split; [reflexivity|]. split; [reflexivity|].
  split; [|split].
  - intros s ticks _ H _.
    unfold Dashboard.execution_ms, Visualize.execution_ms, try_except.
    cbn [Py.replace mbind result_bind]. rewrite H. cbn [mbind result_bind].
    eexists. split; [reflexivity|]. split; [reflexivity|].
    apply Qred_correct.
  - intros s e hours minutes seconds h m sec _ H Hsplit Hh Hm Hsec _ _ _ _.
    unfold Dashboard.execution_ms, try_except.
    cbn [Py.replace Py.split mbind result_bind]. rewrite H, Hsplit.
    cbn [mbind result_bind]. rewrite Hsec. cbn [mbind result_bind].
    rewrite Hh. cbn [mbind result_bind]. rewrite Hm. cbn [mbind result_bind].
    rewrite add_of_Z. cbn [Num.add Num.of_Z Num.mul_int].
    eexists. split; [reflexivity|].
    rewrite Qred_correct, Qred_correct. reflexivity.
  - intros s e H. unfold Visualize.execution_ms.
    cbn [Py.replace mbind result_bind]. rewrite H. reflexivity.
Qed.

Lemma execution_time_formats_witness :
  (exists x,
     Dashboard.execution_ms (JStr " 25 Ticks") = Ok (Fin x) /\
     Visualize.execution_ms (JStr " 25 Ticks") = Ok (Fin x) /\
     (x == inject_Z 25 / 10000)%Q) /\
  (exists x,
     Dashboard.execution_ms (JStr "1:02:03.5") = Ok (Fin x) /\
     (x == (inject_Z (1 * 3600 + 2 * 60) + (7 # 2)) * 1000)%Q) /\
  Visualize.execution_ms (JStr "1:02:03.5") = Raise ValueError.
Proof.
  destruct execution_time_formats as (_ & _ & _ & Hticks & Hcolon & Honly).
  split; [|split].
  - apply (Hticks " 25 Ticks" 25); [vm_compute; lia | reflexivity |].
    unfold in_float_range. vm_compute. discriminate.
  - apply (Hcolon "1:02:03.5" ValueError "1" "02" "03.5" 1 2 (7 # 2));
      try reflexivity; try (vm_compute; lia);
      unfold in_float_range; vm_compute; discriminate.
  - apply (Honly "1:02:03.5" ValueError). reflexivity.
Defined.

(** C4, as stated, fails for the visualization script: a record whose
    execution time is ["0:00:01.5"] stops its analysis with [ValueError]
    instead of contributing 1500 milliseconds, as it does in the
    dashboard script. *)
Lemma colon_format_rejected_by_visualization :
  Visualize.analyze_data [Sample.timed "evolution" "0:00:01.5"] = Raise ValueError /\
  exists res, Dashboard.analyze_data [Sample.timed "evolution" "0:00:01.5"] = Ok res /\
              Dashboard.sk_processing_times res = [Fin 1500].
Proof.
  split; [vm_compute; reflexivity|].
  eexists. split; vm_compute; reflexivity.
Qed.

(** ** C2: an execution time in neither format *)

(** C2, as the code has it: in the dashboard script a kept record whose
    execution-time string is not a tick count and does not split into
    three parts at the colons is processed without an exception, and the
    value 0 is stored as its processing time. *)
Theorem malformed_execution_time_counts_as_zero
    (res : Dashboard.results) (fields : gmap string jval)
    (frequency : jval) (s : string) (e : exn) :
  fields !! "RecommendedFrequency" = Some frequency ->
  fields !! "ExecutionTime" = Some (JStr s) ->
  Str.int (Str.replace " Ticks" "" s) = Raise e ->
  length (Str.split ":" s) <> 3%nat ->
  exists res',
    Dashboard.analyze_item res (Obj fields) = Ok res' /\
    Dashboard.sk_processing_times res' = Dashboard.sk_processing_times res ++ [Num.of_Z 0] /\
    Dashboard.sk_frequencies res' = Dashboard.sk_frequencies res ++ [frequency].
Proof.
  intros Hfreq Htime Hint Hparts.
  rewrite dashboard_analyze_item_Obj, Hfreq, Htime.
  assert (Hms : Dashboard.execution_ms (JStr s) = Ok (Num.of_Z 0)).
  { unfold Dashboard.execution_ms, try_except.
    cbn [Py.replace Py.split mbind result_bind]. rewrite Hint.
    cbn [mbind result_bind].
    destruct (Str.split ":" s) as [|a [|b [|c [|d l]]]]; try reflexivity.
    exfalso. apply Hparts. reflexivity. }
  cbn zeta. rewrite Hms. cbn [mbind result_bind].
  eexists. split; [reflexivity|]. split; reflexivity.
Qed.

Lemma malformed_execution_time_counts_as_zero_witness :
  exists res',
    Dashboard.analyze_item Dashboard.empty_results (Sample.timed "immediate" "abc") = Ok res' /\
    Dashboard.sk_processing_times res' = [] ++ [Num.of_Z 0] /\
    Dashboard.sk_frequencies res' = [] ++ [JStr "immediate"].
Proof.
  apply (malformed_execution_time_counts_as_zero Dashboard.empty_results _
           (JStr "immediate") "abc" ValueError); vm_compute; congruence.
Defined.

(** C2, as stated, fails in both scripts: the execution time ["abc"] is
    recorded as 0 by the dashboard script, not dropped, and stops the
    analysis of the visualization script with [ValueError]. *)
Lemma malformed_execution_time_not_dropped :
  (exists res, Dashboard.analyze_data [Sample.timed "immediate" "abc"] = Ok res /\
               Dashboard.sk_processing_times res = [Fin 0] /\
               Dashboard.sk_processing_times res <> []) /\
  Visualize.analyze_data [Sample.timed "immediate" "abc"] = Raise ValueError.
Proof.
  split; [|vm_compute; reflexivity].
  eexists. split; [vm_compute; reflexivity|]. split; [reflexivity | discriminate].
Qed.

(** ** C3: processing times and their categories *)

(** C3 at a failing input: an immediate record without execution time
    followed by an evolution record that took 10 milliseconds.  The lists
    of frequencies and of processing times are paired by position, so both
    scripts show the 10 milliseconds under immediate and 0 under
    evolution, where the mean of the evolution records is 10 and immediate
    has no timed record. *)
Theorem processing_time_attributed_by_position :
  (exists res,
     Dashboard.analyze_data
       [Sample.immediate; Sample.timed "evolution" "100000 Ticks"] = Ok res /\
     Dashboard.sk_frequencies res = [JStr "immediate"; JStr "evolution"] /\
     Dashboard.sk_processing_times res = [Fin 10] /\
     Dashboard.create_processing_time_chart res =
       Ok (Some {| value_bars :=
                     [("immediate", Fin 10); ("continuous", Fin 0); ("analysis", Fin 0);
                      ("optimization", Fin 0); ("evolution", Fin 0)];
                   value_labels := [("immediate", Fin 10)] |})) /\
  (exists res,
     Visualize.analyze_data
       [Sample.immediate; Sample.timed "evolution" "100000 Ticks"] = Ok res /\
     Visualize.sk_frequencies res = [JStr "immediate"; JStr "evolution"] /\
     Visualize.sk_processing_times res = [Fin 10] /\
     Visualize.create_processing_time_visualization res =
       {| value_bars :=
            [("immediate", Fin 10); ("continuous", Fin 0); ("analysis", Fin 0);
             ("optimization", Fin 0); ("evolution", Fin 0)];
          value_labels := [("immediate", Fin 10)] |}).
Proof.
  split; eexists; (split; [vm_compute; reflexivity|]);
    repeat split; vm_compute; reflexivity.
Qed.

(** ** C6: the categories shown by each view *)

Lemma mapM_Ok_Forall2 {A B} (f : A -> result B) (l : list A) (bs : list B) :
  mapM f l = Ok bs -> Forall2 (fun a b => f a = Ok b) l bs.
Proof.
  revert bs. induction l as [|a l IH]; intros bs H.
  - cbn in H. injection H as <-. constructor.
  - cbn in H. destruct (f a) as [b|] eqn:Hb; [|discriminate].
    cbn in H. destruct (mapM f l) as [bs'|]; [|discriminate].
    cbn in H. injection H as <-. constructor; [exact Hb | by apply IH].
Qed.

Lemma Forall2_map_r {A B} (f : A -> B) (l : list A) :
  Forall2 (fun a b => b = f a) l (map f l).
Proof. induction l; constructor; [reflexivity | assumption]. Qed.

Lemma zip_map_r {A B} (f : A -> B) (l : list A) :
  Py.zip l (map f l) = map (fun a => (a, f a)) l.
Proof. unfold Py.zip. induction l as [|a l IH]; [reflexivity|]. cbn. by rewrite IH. Qed.

Lemma filter_iff {A} (P Q : A -> Prop) `{forall a, Decision (P a)}
    `{forall a, Decision (Q a)} (l : list A) :
  (forall a, P a <-> Q a) -> filter P l = filter Q l.
Proof.
  intros HPQ. induction l as [|a l IH]; [reflexivity|].
  rewrite !filter_cons, IH.
  destruct (decide (P a)) as [HP|HP], (decide (Q a)) as [HQ|HQ];
    try reflexivity; exfalso; [apply HQ | apply HP]; by apply HPQ.
Qed.

Lemma filter_pairs_fst {A B} (v : A -> B) (P : B -> Prop)
    {Hdec : forall b, Decision (P b)} (l : list A) :
  map fst (filter (fun fv : A * B => P fv.2) (map (fun a => (a, v a)) l)) =
  filter (fun a => P (v a)) l.
Proof.
  induction l as [|a l IH]; [reflexivity|].
  cbn [map]. rewrite !filter_cons. cbn [snd].
  destruct (decide (P (v a))); cbn [map fst]; rewrite IH; reflexivity.
Qed.

(** A label that does not occur has no pair in the zipped lists. *)
Lemma zip_absent {B} (freq : string) (fs : list jval) (ys : list B) :
  occurrences freq fs = O ->
  filter (fun kv : jval * B => is_label freq kv.1 = true) (Py.zip fs ys) = [].
Proof.
  unfold Py.zip. revert ys. induction fs as [|f fs IH]; intros ys Hocc; [reflexivity|].
  rewrite occurrences_cons in Hocc. destruct ys as [|y ys]; [reflexivity|].
  cbn [combine]. rewrite filter_cons. cbn [fst].
  destruct (is_label freq f) eqn:Hf; [lia|].
  rewrite decide_False by discriminate. apply IH. lia.
Qed.

Lemma group_absent {B} (freq : string) (fs : list jval) (ys : list B) :
  occurrences freq fs = O ->
  default [] (Py.dict_get (Py.group (Py.zip fs ys)) (JStr freq)) = [].
Proof. intros H. rewrite group_get, zip_absent by exact H. reflexivity. Qed.

(** With one value per record, the values grouped under a label are as
    many as the occurrences of the label. *)
Lemma group_aligned {A B} (freq : string) (f : A -> jval) (g : A -> B) (l : list A) :
  length (default [] (Py.dict_get (Py.group (Py.zip (map f l) (map g l))) (JStr freq))) =
  occurrences freq (map f l).
Proof.
  rewrite group_get, zip_filter_label, length_map. unfold occurrences.
  induction l as [|a l IH]; [reflexivity|].
  cbn [map]. rewrite !filter_cons.
  destruct (decide (is_label freq (f a) = true)); cbn [length]; rewrite IH; reflexivity.
Qed.

Lemma counts_in_order_zip (fs : list jval) :
  Py.zip frequencies (counts_of (Py.Counter fs)) = counts_in_order fs.
Proof. rewrite counts_of_Counter, zip_map_r. reflexivity. Qed.

(** A chart whose bars are computed category by category, each at zero
    when the category has no record. *)
Lemma bars_show_categories (fs : list jval) (f : string -> result num) (values : list num) :
  (forall freq x, f freq = Ok x -> occurrences freq fs = O -> x = Num.of_Z 0) ->
  mapM f frequencies = Ok values ->
  Forall2 (shows_category fs) frequencies (Py.zip frequencies values).
Proof.
  intros Hzero H. apply mapM_Ok_Forall2 in H. apply Forall2_zip in H as [_ H].
  eapply Forall2_impl; [exact H|].
  intros freq bar [Hname Hvalue]. split; [exact Hname|].
  intros Hocc. by apply (Hzero freq).
Qed.

(** The views of the dashboard: all five categories, in order. *)
Lemma dashboard_views_in_order (res : Dashboard.results) :
  let fs := Dashboard.sk_frequencies res in
  (exists chart, Dashboard.create_frequency_chart res = Ok chart /\
     bars chart = counts_in_order fs) /\
  (forall chart, Dashboard.create_economic_chart res = Ok chart ->
     Forall2 (shows_category fs) frequencies (value_bars chart)) /\
  (forall chart, Dashboard.create_processing_time_chart res = Ok (Some chart) ->
     Forall2 (shows_category fs) frequencies (value_bars chart)) /\
  (forall chart, Dashboard.create_success_rate_chart res = Ok chart ->
     Forall2 (shows_category fs) frequencies (value_bars chart)) /\
  (forall metrics,
     Dashboard.frequency_metrics res (length fs) = Ok metrics ->
     map (fun m => (Dashboard.freq_name m, Dashboard.freq_count m)) metrics =
     counts_in_order fs).
Proof.
  intros fs. split; [|split; [|split; [|split]]].
  - unfold Dashboard.create_frequency_chart.
    rewrite percentage_labels_Ok. cbn [mbind result_bind].
    eexists. split; [reflexivity|]. cbn [bars]. apply counts_in_order_zip.
  - intros chart H. unfold Dashboard.create_economic_chart in H.
    apply bind_inv_Ok in H as (values & Hvalues & H). injection H as <-.
    cbn [value_bars]. eapply bars_show_categories; [|exact Hvalues].
    intros freq x Hx Hocc. cbn beta in Hx.
    rewrite group_absent in Hx by exact Hocc. congruence.
  - intros chart H. unfold Dashboard.create_processing_time_chart in H.
    destruct (Dashboard.sk_processing_times res) as [|t ts] eqn:Htimes; [discriminate|].
    cbv zeta in H.
    match type of H with
    | Ok (Some {| value_bars := Py.zip frequencies ?v; value_labels := _ |}) = _ =>
        remember v as avg eqn:Havg
    end.
    injection H as <-. cbn [value_bars].
    eapply bars_show_categories.
    2: { rewrite Havg. apply mapM_Ok_total. }
    intros freq x Hx Hocc. cbn beta in Hx.
    rewrite group_absent in Hx by exact Hocc. congruence.
  - intros chart H. unfold Dashboard.create_success_rate_chart in H.
    apply bind_inv_Ok in H as (values & Hvalues & H). injection H as <-.
    cbn [value_bars]. eapply bars_show_categories; [|exact Hvalues].
    intros freq x Hx Hocc. cbn beta in Hx.
    rewrite group_absent in Hx by exact Hocc. congruence.
  - intros metrics H. unfold Dashboard.frequency_metrics in H.
    apply mapM_Ok_Forall2 in H. unfold counts_in_order.
    induction H as [|freq m freqs ms Hm _ IH]; [reflexivity|].
    cbn [map]. rewrite IH. f_equal.
    apply bind_inv_Ok in Hm as (percentage & _ & Hm). injection Hm as <-.
    cbn [Dashboard.freq_name Dashboard.freq_count]. rewrite Counter_get. reflexivity.
Qed.

Lemma categories_with_values {A B} (g : A -> B) (records : list (jval * A)) :
  filter (fun freq =>
            default [] (Py.dict_get
                          (Py.group (Py.zip (records.*1) (map (fun r => g r.2) records)))
                          (JStr freq)) <> [])
         frequencies =
  categories_with_records (records.*1).
Proof.
  unfold categories_with_records. apply filter_iff. intros freq.
  pose proof (group_aligned freq fst (fun r : jval * A => g r.2) records) as Hlen.
  change (map fst records) with (records.*1) in Hlen.
  rewrite <- Hlen.
  destruct (default [] _) as [|b bs]; cbn [length]; split; intros H;
    try lia; try congruence.
Qed.

Lemma valid_categories {A} (g : A -> jval) (records : list (jval * A)) :
  map fst
    (filter (fun fv : string * list jval => fv.2 <> [])
       (map (fun freq =>
               (freq,
                default [] (Py.dict_get
                              (Py.group (Py.zip (records.*1) (map (fun r => g r.2) records)))
                              (JStr freq))))
            frequencies)) =
  categories_with_records (records.*1).
Proof.
  rewrite <- (categories_with_values g records).
  apply (filter_pairs_fst
           (fun freq =>
              default [] (Py.dict_get
                            (Py.group (Py.zip (records.*1) (map (fun r => g r.2) records)))
                            (JStr freq)))
           (fun values : list jval => values <> [])
           (Hdec := fun values => not_dec (list_eq_nil_dec values))).
Qed.

(** The views of the visualization script: the bar charts and the count
    lines show all five categories in order; the box plot and the
    economic lines of the summary show the categories that have records. *)
Lemma visualization_views_in_order (data : list item) (res : Visualize.results) :
  Visualize.analyze_data data = Ok res ->
  let fs := (kept data).*1 in
  (exists chart, Visualize.create_frequency_distribution res = Ok chart /\
     bars chart = counts_in_order fs /\ count_labels chart = counts_in_order fs) /\
  Forall2 (shows_category fs) frequencies
    (value_bars (Visualize.create_processing_time_visualization res)) /\
  (forall boxes, Visualize.create_economic_value_distribution res = Ok (Some boxes) ->
     map Visualize.box_label boxes = categories_with_records fs) /\
  (Visualize.create_economic_value_distribution res = Ok None ->
     categories_with_records fs = []) /\
  (forall text, Visualize.create_summary_visualization res = Ok text ->
     frequency_lines text = counts_in_order fs /\
     economic_lines text = categories_with_records fs).
Proof.
  intros Hres fs. subst fs.
  apply visualize_analyze_from_kept in Hres as (Hf & He & _).
  cbn [Visualize.empty_results Visualize.sk_frequencies
         Visualize.sk_economic_values app] in Hf, He.
  split; [|split; [|split; [|split]]].
  - unfold Visualize.create_frequency_distribution.
    rewrite percentage_labels_Ok. cbn [mbind result_bind].
    eexists. split; [reflexivity|]. cbn [bars count_labels].
    rewrite Hf. split; apply counts_in_order_zip.
  - unfold Visualize.create_processing_time_visualization. cbn [value_bars].
    rewrite Hf. eapply bars_show_categories.
    2: { apply mapM_Ok_total. }
    intros freq x Hx Hocc. cbn beta in Hx.
    rewrite group_absent in Hx by exact Hocc. congruence.
  - intros boxes H. unfold Visualize.create_economic_value_distribution in H.
    rewrite Hf, He, zip_map_r in H. cbv zeta in H.
    pose proof (valid_categories
                  (fun fields : gmap string jval =>
                     default (JNum (Num.of_Z 0)) (fields !! "EconomicValue"))
                  (kept data)) as Hcat.
    cbn beta in Hcat. rewrite <- Hcat. clear Hcat.
    destruct (filter _ (map _ frequencies)) as [|fv valid]; [discriminate|].
    apply bind_inv_Ok in H as (boxes' & Hboxes & H). injection H as <-.
    eapply mapM_Ok_fst; [|exact Hboxes].
    intros a b Hab. apply bind_inv_Ok in Hab as (mean_val & _ & Hab).
    injection Hab as <-. reflexivity.
  - intros H. unfold Visualize.create_economic_value_distribution in H.
    rewrite Hf, He, zip_map_r in H. cbv zeta in H.
    pose proof (valid_categories
                  (fun fields : gmap string jval =>
                     default (JNum (Num.of_Z 0)) (fields !! "EconomicValue"))
                  (kept data)) as Hcat.
    cbn beta in Hcat. rewrite <- Hcat. clear Hcat.
    destruct (filter _ (map _ frequencies)) as [|fv valid]; [reflexivity|].
    apply bind_inv_Ok in H as (boxes' & _ & H). discriminate.
  - intros text H. unfold Visualize.create_summary_visualization in H.
    apply bind_inv_Ok in H as (avg & _ & H).
    apply bind_inv_Ok in H as (fl & Hfl & H).
    apply bind_inv_Ok in H as (el & Hel & H). injection H as <-.
    apply mapM_Ok_Forall2 in Hfl, Hel.
    assert (Hfreq : frequency_lines fl = counts_in_order ((kept data).*1) /\ economic_lines fl = []).
    { unfold counts_in_order. rewrite <- Hf. clear Hel.
      induction Hfl as [|freq l freqs ls Hl _ [IH1 IH2]]; [split; reflexivity|].
      apply bind_inv_Ok in Hl as (percentage & _ & Hl). injection Hl as <-.
      unfold frequency_lines, economic_lines in *. cbn [omap list_omap map].
      rewrite IH1, IH2, Counter_get. split; reflexivity. }
    assert (Hecon : economic_lines el = categories_with_records ((kept data).*1) /\
                    frequency_lines el = []).
    { rewrite Hf, He in Hel.
      pose proof (valid_categories
                    (fun fields : gmap string jval =>
                       default (JNum (Num.of_Z 0)) (fields !! "EconomicValue"))
                    (kept data)) as Hcat.
      cbn beta in Hcat. rewrite <- Hcat. clear Hcat.
      clear Hfl. induction Hel as [|fv l fvs ls Hl _ [IH1 IH2]]; [split; reflexivity|].
      apply bind_inv_Ok in Hl as (avg' & _ & Hl). injection Hl as <-.
      unfold frequency_lines, economic_lines in *. cbn [omap list_omap map].
      rewrite IH1, IH2. split; reflexivity. }
    destruct Hfreq as [Hfreq1 Hfreq2], Hecon as [Hecon1 Hecon2].
    unfold frequency_lines, economic_lines in *.
    cbn [app omap list_omap]. rewrite !omap_app. cbn [app omap list_omap].
    rewrite Hfreq1, Hfreq2, Hecon1, Hecon2, app_nil_r.
    split; reflexivity.
Qed.

(** C6, as the code has it: on every input on which the analysis returns,
    each per-frequency bar chart that is drawn (frequency, economic value,
    processing time and success rate in the dashboard; frequency and
    processing time in the visualization), the frequency section of the
    dashboard and the frequency lines of the text summary present all five
    categories in the fixed order, a category without records at zero.
    The box plot and the economic-value lines of the text summary present,
    in the fixed order, only the categories that have at least one
    record. *)
Theorem views_show_categories_in_fixed_order (data : list item) :
  (forall res, Dashboard.analyze_data data = Ok res ->
     (exists chart, Dashboard.create_frequency_chart res = Ok chart /\
        bars chart = counts_in_order ((kept data).*1)) /\
     (forall chart, Dashboard.create_economic_chart res = Ok chart ->
        Forall2 (shows_category ((kept data).*1)) frequencies (value_bars chart)) /\
     (forall chart, Dashboard.create_processing_time_chart res = Ok (Some chart) ->
        Forall2 (shows_category ((kept data).*1)) frequencies (value_bars chart)) /\
     (forall chart, Dashboard.create_success_rate_chart res = Ok chart ->
        Forall2 (shows_category ((kept data).*1)) frequencies (value_bars chart)) /\
     (forall metrics,
        Dashboard.frequency_metrics res (length (Dashboard.sk_frequencies res)) = Ok metrics ->
        map (fun m => (Dashboard.freq_name m, Dashboard.freq_count m)) metrics =
        counts_in_order ((kept data).*1))) /\
  (forall res, Visualize.analyze_data data = Ok res ->
     (exists chart, Visualize.create_frequency_distribution res = Ok chart /\
        bars chart = counts_in_order ((kept data).*1) /\
        count_labels chart = counts_in_order ((kept data).*1)) /\
     Forall2 (shows_category ((kept data).*1)) frequencies
       (value_bars (Visualize.create_processing_time_visualization res)) /\
     (forall boxes, Visualize.create_economic_value_distribution res = Ok (Some boxes) ->
        map Visualize.box_label boxes = categories_with_records ((kept data).*1)) /\
     (Visualize.create_economic_value_distribution res = Ok None ->
        categories_with_records ((kept data).*1) = []) /\
     (forall text, Visualize.create_summary_visualization res = Ok text ->
        frequency_lines text = counts_in_order ((kept data).*1) /\
        economic_lines text = categories_with_records ((kept data).*1))).
Proof.
  split.
  - intros res Hres.
    apply dashboard_analyze_from_kept in Hres as (Hf & _).
    cbn [Dashboard.empty_results Dashboard.sk_frequencies app] in Hf.
    rewrite <- Hf. apply dashboard_views_in_order.
  - intros res Hres. by apply visualization_views_in_order.
Qed.

Lemma views_show_categories_in_fixed_order_witness :
  (exists res chart,
     Dashboard.analyze_data [Sample.immediate] = Ok res /\
     Dashboard.create_economic_chart res = Ok chart /\
     Forall2 (shows_category ((kept [Sample.immediate]).*1)) frequencies (value_bars chart)) /\
  (exists res boxes,
     Visualize.analyze_data [Sample.immediate] = Ok res /\
     Visualize.create_economic_value_distribution res = Ok (Some boxes) /\
     map Visualize.box_label boxes = categories_with_records ((kept [Sample.immediate]).*1)).
Proof.
  destruct (views_show_categories_in_fixed_order [Sample.immediate]) as [Hd Hv].
  split.
  - do 2 eexists. split; [vm_compute; reflexivity|].
    split; [vm_compute; reflexivity|].
    refine (proj1 (proj2 (Hd _ _)) _ _); vm_compute; reflexivity.
  - do 2 eexists. split; [vm_compute; reflexivity|].
    split; [vm_compute; reflexivity|].
    refine (proj1 (proj2 (proj2 (Hv _ _))) _ _); vm_compute; reflexivity.
Defined.

(** C6, as stated, fails for the visualization script: with one immediate
    record, its box plot and the economic-value lines of its summary show
    the immediate category alone; the four categories without records are
    left out, not shown at zero. *)
Lemma empty_categories_omitted_by_visualization :
  exists res boxes text,
    Visualize.analyze_data [Sample.immediate] = Ok res /\
    Visualize.create_economic_value_distribution res = Ok (Some boxes) /\
    map Visualize.box_label boxes = ["immediate"] /\
    map Visualize.box_label boxes <> frequencies /\
    Visualize.create_summary_visualization res = Ok text /\
    economic_lines text = ["immediate"] /\
    economic_lines text <> frequencies.
Proof.
  do 3 eexists. split; [vm_compute; reflexivity|].
  split; [vm_compute; reflexivity|].
  split; [reflexivity|]. split; [discriminate|].
  split; [vm_compute; reflexivity|].
  split; [reflexivity | discriminate].
Qed.

(** * Further properties of the two scripts *)

(** ** The analysis as a whole *)

Lemma omap_length_le {A B} (f : A -> option B) (l : list A) :
  (length (omap f l) <= length l)%nat.
Proof.
  induction l as [|a l IH]; [reflexivity|].
  cbn. destruct (f a); cbn; lia.
Qed.

Lemma mapM_Ok_length {A B} (f : A -> result B) (l : list A) (bs : list B) :
  mapM f l = Ok bs -> length bs = length l.
Proof.
  intros H. apply mapM_Ok_Forall2 in H. symmetry. by eapply Forall2_length.
Qed.

(** X1: after a successful analysis the per-record lists all have one
    entry per kept record, in both scripts, and the list of processing
    times has one entry per kept record that has an execution time; it is
    therefore never longer than the others. *)
Theorem analysis_lists_have_one_entry_per_kept_record (data : list item) :
  (forall res, Dashboard.analyze_data data = Ok res ->
     length (Dashboard.sk_frequencies res) = length (kept data) /\
     length (Dashboard.sk_economic_values res) = length (kept data) /\
     length (Dashboard.goals res) = length (kept data) /\
     length (Dashboard.contexts res) = length (kept data) /\
     length (Dashboard.timestamps res) = length (kept data) /\
     length (Dashboard.successful res) = length (kept data) /\
     length (Dashboard.sk_processing_times res) = length (times_of (kept data)) /\
     (length (Dashboard.sk_processing_times res) <= length (kept data))%nat) /\
  (forall res, Visualize.analyze_data data = Ok res ->
     length (Visualize.sk_frequencies res) = length (kept data) /\
     length (Visualize.sk_economic_values res) = length (kept data) /\
     length (Visualize.sk_processing_times res) = length (times_of (kept data)) /\
     (length (Visualize.sk_processing_times res) <= length (kept data))%nat).
Proof.
  split.
  - intros res H.
    apply dashboard_analyze_from_kept in H
      as (Hf & He & Hg & Hc & Ht & Hs & times & Htimes & Hp).
    cbn [Dashboard.empty_results Dashboard.sk_frequencies Dashboard.sk_economic_values
           Dashboard.goals Dashboard.contexts Dashboard.timestamps Dashboard.successful
           Dashboard.sk_processing_times app] in *.
    rewrite Hf, He, Hg, Hc, Ht, Hs, Hp, length_fmap, !length_map.
    apply mapM_Ok_length in Htimes. rewrite Htimes.
    repeat split; try reflexivity. apply omap_length_le.
  - intros res H.
    apply visualize_analyze_from_kept in H as (Hf & He & times & Htimes & Hp).
    cbn [Visualize.empty_results Visualize.sk_frequencies Visualize.sk_economic_values
           Visualize.sk_processing_times app] in *.
    rewrite Hf, He, Hp, length_fmap, !length_map.
    apply mapM_Ok_length in Htimes. rewrite Htimes.
    repeat split; try reflexivity. apply omap_length_le.
Qed.

Lemma analysis_lists_have_one_entry_per_kept_record_witness :
  exists res,
    Dashboard.analyze_data
      [Sample.immediate; Obj Sample.no_frequency; Sample.timed "evolution" "5 Ticks"] = Ok res /\
    length (Dashboard.goals res) = 2%nat /\
    length (Dashboard.sk_processing_times res) = 1%nat.
Proof.
  eexists. split; [vm_compute; reflexivity|].
  destruct (analysis_lists_have_one_entry_per_kept_record
              [Sample.immediate; Obj Sample.no_frequency;
               Sample.timed "evolution" "5 Ticks"]) as [Hd _].
  destruct (Hd _ ltac:(vm_compute; reflexivity)) as (_ & _ & Hg & _ & _ & _ & Hp & _).
  split; [exact Hg | exact Hp].
Defined.

Lemma dashboard_append_empty_r (res : Dashboard.results) :
  dashboard_append res Dashboard.empty_results = res.
Proof. destruct res. unfold dashboard_append. cbn. by rewrite !app_nil_r. Qed.

Lemma visualize_append_empty_r (res : Visualize.results) :
  visualize_append res Visualize.empty_results = res.
Proof. destruct res. unfold visualize_append. cbn. by rewrite !app_nil_r. Qed.

(** What one turn of the loop appends does not depend on what is already
    stored. *)
Lemma dashboard_analyze_item_frame (a res : Dashboard.results) (it : item) :
  Dashboard.analyze_item (dashboard_append a res) it =
  (res' ← Dashboard.analyze_item res it; Ok (dashboard_append a res')).
Proof.
  destruct it as [fields|v].
  - rewrite !dashboard_analyze_item_Obj.
    destruct (fields !! "RecommendedFrequency") as [frequency|]; [|reflexivity].
    cbv zeta.
    destruct (fields !! "ExecutionTime") as [time|].
    + destruct (Dashboard.execution_ms time) as [ms|e]; [|reflexivity].
      cbn. unfold dashboard_append, Dashboard.store_time, Dashboard.store. cbn.
      by rewrite !app_assoc.
    + cbn. unfold dashboard_append, Dashboard.store. cbn. by rewrite !app_assoc.
  - unfold Dashboard.analyze_item. destruct v as [|b|x|s]; try reflexivity.
    cbn. destruct (Str.contains "RecommendedFrequency" s); reflexivity.
Qed.

Lemma dashboard_analyze_from_frame (a res : Dashboard.results) (data : list item) :
  Dashboard.analyze_from (dashboard_append a res) data =
  (res' ← Dashboard.analyze_from res data; Ok (dashboard_append a res')).
Proof.
  revert res. induction data as [|it data IH]; intros res; [reflexivity|].
  cbn [Dashboard.analyze_from]. rewrite dashboard_analyze_item_frame.
  destruct (Dashboard.analyze_item res it) as [res1|e]; [|reflexivity].
  cbn [mbind result_bind]. apply IH.
Qed.

Lemma visualize_analyze_item_frame (a res : Visualize.results) (it : item) :
  Visualize.analyze_item (visualize_append a res) it =
  (res' ← Visualize.analyze_item res it; Ok (visualize_append a res')).
Proof.
  destruct it as [fields|v].
  - rewrite !visualize_analyze_item_Obj.
    destruct (fields !! "RecommendedFrequency") as [frequency|]; [|reflexivity].
    destruct (fields !! "Goal") as [goal|]; [|reflexivity].
    cbv zeta.
    destruct (fields !! "ExecutionTime") as [time|].
    + destruct (Visualize.execution_ms time) as [ms|e]; [|reflexivity].
      cbn. unfold visualize_append, Visualize.store_time, Visualize.store. cbn.
      by rewrite !app_assoc.
    + cbn. unfold visualize_append, Visualize.store. cbn. by rewrite !app_assoc.
  - unfold Visualize.analyze_item. destruct v as [|b|x|s]; try reflexivity.
    cbn. destruct (Str.contains "RecommendedFrequency" s); reflexivity.
Qed.

Lemma visualize_analyze_from_frame (a res : Visualize.results) (data : list item) :
  Visualize.analyze_from (visualize_append a res) data =
  (res' ← Visualize.analyze_from res data; Ok (visualize_append a res')).
Proof.
  revert res. induction data as [|it data IH]; intros res; [reflexivity|].
  cbn [Visualize.analyze_from]. rewrite visualize_analyze_item_frame.
  destruct (Visualize.analyze_item res it) as [res1|e]; [|reflexivity].
  cbn [mbind result_bind]. apply IH.
Qed.

(** X2: analysing two inputs one after the other is analysing each and
    appending the aggregates list by list; an exception in either part is
    the exception of the whole, the first part's first. *)
Theorem analysis_of_concatenation (xs ys : list item) :
  Dashboard.analyze_data (xs ++ ys) =
    (r1 ← Dashboard.analyze_data xs;
     r2 ← Dashboard.analyze_data ys;
     Ok (dashboard_append r1 r2)) /\
  Visualize.analyze_data (xs ++ ys) =
    (r1 ← Visualize.analyze_data xs;
     r2 ← Visualize.analyze_data ys;
     Ok (visualize_append r1 r2)).
Proof.
  split.
  - unfold Dashboard.analyze_data. rewrite dashboard_analyze_from_app.
    destruct (Dashboard.analyze_from Dashboard.empty_results xs) as [r1|e]; [|reflexivity].
    cbn [mbind result_bind].
    rewrite <- (dashboard_append_empty_r r1) at 1.
    apply dashboard_analyze_from_frame.
  - unfold Visualize.analyze_data. rewrite visualize_analyze_from_app.
    destruct (Visualize.analyze_from Visualize.empty_results xs) as [r1|e]; [|reflexivity].
    cbn [mbind result_bind].
    rewrite <- (visualize_append_empty_r r1) at 1.
    apply visualize_analyze_from_frame.
Qed.

(** ** The two analyses compared *)

Lemma visualize_execution_ms_in_dashboard (v : jval) (ms : num) :
  Visualize.execution_ms v = Ok ms -> Dashboard.execution_ms v = Ok ms.
Proof.
  unfold Visualize.execution_ms, Dashboard.execution_ms, try_except.
  intros H. rewrite H. reflexivity.
Qed.

Lemma dashboard_follows_visualization_item
    (v v' : Visualize.results) (d : Dashboard.results) (it : item) :
  same_aggregate v d ->
  Visualize.analyze_item v it = Ok v' ->
  exists d', Dashboard.analyze_item d it = Ok d' /\ same_aggregate v' d'.
Proof.
  intros (Hf & He & Hp) H. destruct it as [fields|x].
  - rewrite visualize_analyze_item_Obj in H. rewrite dashboard_analyze_item_Obj.
    destruct (fields !! "RecommendedFrequency") as [frequency|].
    + destruct (fields !! "Goal") as [goal|]; [|discriminate].
      cbv zeta in H |- *.
      destruct (fields !! "ExecutionTime") as [time|].
      * apply bind_inv_Ok in H as (ms & Hms & H). injection H as <-.
        rewrite (visualize_execution_ms_in_dashboard _ _ Hms).
        eexists. split; [reflexivity|].
        unfold same_aggregate. cbn. rewrite Hf, He, Hp. repeat split.
      * injection H as <-. eexists. split; [reflexivity|].
        unfold same_aggregate. cbn. rewrite Hf, He, Hp. repeat split.
    + injection H as <-. exists d. repeat split; assumption.
  - apply visualize_analyze_item_Scalar in H as Hv. subst v'.
    exists d. split; [|repeat split; assumption].
    unfold Visualize.analyze_item in H. unfold Dashboard.analyze_item.
    destruct x as [|b|n|s]; try discriminate. cbn in *.
    destruct (Str.contains "RecommendedFrequency" s); [discriminate | reflexivity].
Qed.

(** X3: whatever input the analysis of the visualization script accepts,
    the analysis of the dashboard script accepts too, with the same
    frequencies, economic values and processing times. *)
Theorem dashboard_accepts_what_visualization_accepts
    (data : list item) (vres : Visualize.results) :
  Visualize.analyze_data data = Ok vres ->
  exists dres, Dashboard.analyze_data data = Ok dres /\ same_aggregate vres dres.
Proof.
  unfold Visualize.analyze_data, Dashboard.analyze_data.
  assert (H0 : same_aggregate Visualize.empty_results Dashboard.empty_results)
    by (repeat split).
  revert H0. generalize Visualize.empty_results, Dashboard.empty_results.
  induction data as [|it data IH]; intros v d Hvd H.
  - cbn in H. injection H as <-. exists d. split; [reflexivity | exact Hvd].
  - cbn [Visualize.analyze_from] in H. apply bind_inv_Ok in H as (v1 & Hit & H).
    destruct (dashboard_follows_visualization_item v v1 d it Hvd Hit) as (d1 & Hd1 & Hvd1).
    cbn [Dashboard.analyze_from]. rewrite Hd1. cbn [mbind result_bind].
    by apply (IH v1 d1).
Qed.

Lemma dashboard_accepts_what_visualization_accepts_witness :
  exists vres dres,
    Visualize.analyze_data [Sample.timed "analysis" "42 Ticks"; Sample.immediate] = Ok vres /\
    Dashboard.analyze_data [Sample.timed "analysis" "42 Ticks"; Sample.immediate] = Ok dres /\
    same_aggregate vres dres.
Proof.
  eexists.
  destruct (dashboard_accepts_what_visualization_accepts
              [Sample.timed "analysis" "42 Ticks"; Sample.immediate] _
              ltac:(vm_compute; reflexivity)) as (dres & Hd & Hsame).
  exists dres. split; [vm_compute; reflexivity|]. split; assumption.
Defined.

(** ** The exceptions of the analysis *)









(** ** The sample table *)

Lemma index_map {A B} (g : A -> B) (l : list A) (i : nat) (x : A) :
  l !! i = Some x -> Dashboard.index (map g l) i = Ok (g x).
Proof.
  intros H. unfold Dashboard.index.
  change (map g l) with (g <$> l). rewrite list_lookup_fmap, H. reflexivity.
Qed.

Lemma sample_rows_from (records : list (jval * gmap string jval)) (m k : nat) :
  (k + m <= length records)%nat ->
  mapM (fun i =>
          goal ← Dashboard.index
                   (map (fun r : jval * gmap string jval =>
                           default (JStr "") (r.2 !! "Goal")) records) i;
          context ←
            (if (i <? length (map (fun r : jval * gmap string jval =>
                                     default (JStr "") (r.2 !! "Context")) records))%nat
             then Dashboard.index
                    (map (fun r : jval * gmap string jval =>
                            default (JStr "") (r.2 !! "Context")) records) i
             else Ok (JStr ""));
          frequency ← Dashboard.index (map fst records) i;
          economic_value ←
            Dashboard.index
              (map (fun r : jval * gmap string jval =>
                      default (JNum (Num.of_Z 0)) (r.2 !! "EconomicValue")) records) i;
          success ←
            Dashboard.index
              (map (fun r : jval * gmap string jval =>
                      default (JBool true) (r.2 !! "WasSuccessful")) records) i;
          Ok {| Dashboard.row_goal := goal; Dashboard.row_context := context;
                Dashboard.row_frequency := frequency;
                Dashboard.row_economic_value := economic_value;
                Dashboard.row_success := Py.truthy success |})
       (seq k m) =
  Ok (map row_of (take m (drop k records))).
Proof.
  revert k. induction m as [|m IH]; intros k Hk; [reflexivity|].
  destruct (lookup_lt_is_Some_2 records k) as [x Hx]; [lia|].
  cbn [seq mapM]. rewrite (drop_S _ _ _ Hx). cbn [take map].
  rewrite (index_map _ _ _ _ Hx). cbn [mbind result_bind].
  rewrite (proj2 (Nat.ltb_lt k _)) by (rewrite length_map; lia).
  do 4 (rewrite (index_map _ _ _ _ Hx); cbn [mbind result_bind]).
  rewrite IH by lia. reflexivity.
Qed.

Lemma sample_rows_of_kept (data : list item) (res : Dashboard.results) :
  Dashboard.analyze_data data = Ok res ->
  exists rows, Dashboard.sample_rows res = Ok rows /\
               rows = map row_of (take 10 (kept data)).
Proof.
  intros H.
  apply dashboard_analyze_from_kept in H as (Hf & He & Hg & Hc & _ & Hs & _).
  cbn [Dashboard.empty_results Dashboard.sk_frequencies Dashboard.sk_economic_values
         Dashboard.goals Dashboard.contexts Dashboard.successful app] in *.
  unfold Dashboard.sample_rows. rewrite Hf, He, Hg, Hc, Hs.
  change ((kept data).*1) with (map fst (kept data)).
  rewrite sample_rows_from by (rewrite length_map; lia).
  rewrite length_map, drop_0. eexists. split; [reflexivity|]. f_equal.
  destruct (Nat.le_ge_cases 10 (length (kept data))) as [Hle|Hge].
  - rewrite Nat.min_l by exact Hle. reflexivity.
  - rewrite Nat.min_r by exact Hge. by rewrite !take_ge by lia.
Qed.

(** X5: the sample table of the dashboard shows the first ten kept
    records, or all of them when there are fewer, in input order, one row
    each; building it never runs past the end of a list. *)
Theorem sample_table_shows_first_ten (data : list item) (res : Dashboard.results) :
  Dashboard.analyze_data data = Ok res ->
  Dashboard.sample_rows res = Ok (map row_of (take 10 (kept data))).
Proof.
  intros H. destruct (sample_rows_of_kept data res H) as (rows & Hrows & ->).
  exact Hrows.
Qed.

Lemma sample_table_shows_first_ten_witness :
  exists res,
    Dashboard.analyze_data (Sample.mixed ++ Sample.mixed ++ Sample.mixed) = Ok res /\
    Dashboard.sample_rows res =
      Ok (map row_of (take 10 (kept (Sample.mixed ++ Sample.mixed ++ Sample.mixed)))) /\
    length (kept (Sample.mixed ++ Sample.mixed ++ Sample.mixed)) = 15%nat.
Proof.
  eexists. split; [vm_compute; reflexivity|]. split; [|reflexivity].
  apply (sample_table_shows_first_ten (Sample.mixed ++ Sample.mixed ++ Sample.mixed)).
  vm_compute. reflexivity.
Defined.

(** ** The frequency charts *)



(** ** What rendering the dashboard can raise *)






















(** ** Processing times *)

(** When every record has an execution time, the times stored in order
    pair with the records position by position: grouping the pairs by
    label gives each category the times of its own records. *)
Lemma timed_records_align (ms : jval -> result num) (freq : string)
    (records : list (jval * gmap string jval)) (times : list num) :
  Forall (fun r : jval * gmap string jval => is_Some (r.2 !! "ExecutionTime")) records ->
  mapM ms (times_of records) = Ok times ->
  mapM ms (times_of (records_of_category freq records)) =
  Ok (default [] (Py.dict_get (Py.group (Py.zip (records.*1) times)) (JStr freq))).
Proof.
  intros Hall. rewrite group_get. revert times.
  induction Hall as [|r records [v Hv] _ IH]; intros times H.
  - cbn in H. injection H as <-. reflexivity.
  - unfold times_of in H. cbn [omap list_omap] in H. rewrite Hv in H.
    cbn [mapM] in H. apply bind_inv_Ok in H as (t & Ht & H).
    apply bind_inv_Ok in H as (ts & Hts & H). injection H as <-.
    specialize (IH ts Hts).
    unfold records_of_category in *. rewrite fmap_cons. cbn [Py.zip combine].
    rewrite !filter_cons. cbn [fst].
    destruct (decide (is_label freq r.1 = true)) as [Hl|Hl].
    + unfold times_of. cbn [omap list_omap map snd]. rewrite Hv. cbn [mapM].
      rewrite Ht. cbn [mbind result_bind].
      unfold times_of, Py.zip in IH. rewrite IH. reflexivity.
    + exact IH.
Qed.

Lemma timed_records_have_times (ms : jval -> result num)
    (records : list (jval * gmap string jval)) (times : list num) :
  Forall (fun r : jval * gmap string jval => is_Some (r.2 !! "ExecutionTime")) records ->
  records <> [] ->
  mapM ms (times_of records) = Ok times -> times <> [].
Proof.
  intros Hall Hne H. destruct Hall as [|r records [v Hv] _]; [congruence|].
  unfold times_of in H. cbn [omap list_omap] in H. rewrite Hv in H.
  cbn [mapM] in H. apply bind_inv_Ok in H as (t & _ & H).
  apply bind_inv_Ok in H as (ts & _ & H). injection H as <-. discriminate.
Qed.

(** X9: when every kept record has an execution time (and there is at
    least one), the processing-time chart of either script shows, for each
    of the five categories in order, the mean of the milliseconds of that
    category's own records, and zero for a category without records. *)
Theorem processing_times_of_timed_records (data : list item) :
  Forall (fun r : jval * gmap string jval => is_Some (r.2 !! "ExecutionTime")) (kept data) ->
  kept data <> [] ->
  (forall res, Dashboard.analyze_data data = Ok res ->
     exists chart,
       Dashboard.create_processing_time_chart res = Ok (Some chart) /\
       Forall2 (fun freq (bar : string * num) =>
                  bar.1 = freq /\
                  exists times,
                    mapM Dashboard.execution_ms
                      (times_of (records_of_category freq (kept data))) = Ok times /\
                    bar.2 = mean_or_zero times)
               frequencies (value_bars chart)) /\
  (forall res, Visualize.analyze_data data = Ok res ->
     Visualize.sk_processing_times res <> [] /\
     Forall2 (fun freq (bar : string * num) =>
                bar.1 = freq /\
                exists times,
                  mapM Visualize.execution_ms
                    (times_of (records_of_category freq (kept data))) = Ok times /\
                  bar.2 = mean_or_zero times)
             frequencies (value_bars (Visualize.create_processing_time_visualization res))).
Proof.
  intros Hall Hne. split.
  - intros res Hres.
    apply dashboard_analyze_from_kept in Hres
      as (Hf & _ & _ & _ & _ & _ & times & Htimes & Hp).
    cbn [Dashboard.empty_results Dashboard.sk_frequencies
           Dashboard.sk_processing_times app] in Hf, Hp.
    pose proof (timed_records_have_times _ _ _ Hall Hne Htimes) as Hnonempty.
    unfold Dashboard.create_processing_time_chart. rewrite Hf, Hp.
    destruct times as [|t ts] eqn:Heq; [congruence|]. rewrite <- Heq in *.
    eexists. split; [reflexivity|]. cbn [value_bars].
    rewrite zip_map_r.
    apply Forall2_fmap_r, Forall_Forall2_diag, Forall_forall. intros freq _.
    split; [reflexivity|]. cbn [snd].
    eexists. split; [by apply timed_records_align|].
    unfold mean_or_zero. destruct (default [] _); reflexivity.
  - intros res Hres.
    apply visualize_analyze_from_kept in Hres as (Hf & _ & times & Htimes & Hp).
    cbn [Visualize.empty_results Visualize.sk_frequencies
           Visualize.sk_processing_times app] in Hf, Hp.
    pose proof (timed_records_have_times _ _ _ Hall Hne Htimes) as Hnonempty.
    split; [by rewrite Hp|].
    unfold Visualize.create_processing_time_visualization. rewrite Hf, Hp.
    cbn [value_bars]. rewrite zip_map_r.
    apply Forall2_fmap_r, Forall_Forall2_diag, Forall_forall. intros freq _.
    split; [reflexivity|]. cbn [snd].
    eexists. split; [by apply timed_records_align|].
    unfold mean_or_zero. destruct (default [] _); reflexivity.
Qed.

Lemma processing_times_of_timed_records_witness :
  exists res chart,
    Dashboard.analyze_data
      [Sample.timed "immediate" "20000 Ticks"; Sample.timed "evolution" "0:00:01";
       Sample.timed "immediate" "40000 Ticks"] = Ok res /\
    Dashboard.create_processing_time_chart res = Ok (Some chart) /\
    value_bars chart =
      [("immediate", Fin 3); ("continuous", Fin 0); ("analysis", Fin 0);
       ("optimization", Fin 0); ("evolution", Fin 1000)].
Proof.
  eexists.
  destruct (processing_times_of_timed_records
              [Sample.timed "immediate" "20000 Ticks"; Sample.timed "evolution" "0:00:01";
               Sample.timed "immediate" "40000 Ticks"]) as [Hd _].
  - vm_compute. repeat (constructor; [eexists; reflexivity|]). constructor.
  - discriminate.
  - destruct (Hd _ ltac:(vm_compute; reflexivity)) as (chart & Hchart & _).
    exists chart. split; [vm_compute; reflexivity|]. split; [exact Hchart|].
    vm_compute in Hchart. injection Hchart as <-. reflexivity.
Defined.

(** X10: the processing-time chart of the dashboard is left out exactly
    when no kept record has an execution time; the visualization script
    has processing times to plot under the same condition. *)
Theorem processing_time_chart_blank_iff_untimed (data : list item) :
  (forall res, Dashboard.analyze_data data = Ok res ->
     (Dashboard.create_processing_time_chart res = Ok None <->
      times_of (kept data) = [])) /\
  (forall res, Visualize.analyze_data data = Ok res ->
     (Visualize.sk_processing_times res = [] <-> times_of (kept data) = [])).
Proof.
  split.
  - intros res Hres.
    apply dashboard_analyze_from_kept in Hres
      as (_ & _ & _ & _ & _ & _ & times & Htimes & Hp).
    cbn [Dashboard.empty_results Dashboard.sk_processing_times app] in Hp.
    apply mapM_Ok_length in Htimes.
    unfold Dashboard.create_processing_time_chart. rewrite Hp.
    destruct times as [|t ts]; destruct (times_of (kept data)) as [|v vs];
      try discriminate; split; try reflexivity; discriminate.
  - intros res Hres.
    apply visualize_analyze_from_kept in Hres as (_ & _ & times & Htimes & Hp).
    cbn [Visualize.empty_results Visualize.sk_processing_times app] in Hp.
    apply mapM_Ok_length in Htimes. rewrite Hp.
    destruct times as [|t ts]; destruct (times_of (kept data)) as [|v vs];
      try discriminate; split; try reflexivity; discriminate.
Qed.

Lemma processing_time_chart_blank_iff_untimed_witness :
  exists res,
    Dashboard.analyze_data [Sample.immediate; Sample.weekly] = Ok res /\
    Dashboard.create_processing_time_chart res = Ok None.
Proof.
  eexists. split; [vm_compute; reflexivity|].
  apply (proj1 (processing_time_chart_blank_iff_untimed [Sample.immediate; Sample.weekly])).
  - vm_compute. reflexivity.
  - reflexivity.
Defined.

(** ** Economic values *)

(** With one value per record, the values grouped under a label are the
    values of the records of that category. *)
Lemma category_lookup {B} (g : jval * gmap string jval -> B) (freq : string)
    (records : list (jval * gmap string jval)) :
  default [] (Py.dict_get (Py.group (Py.zip (records.*1) (map g records))) (JStr freq)) =
  map g (records_of_category freq records).
Proof.
  rewrite group_get. change (records.*1) with (map fst records).
  apply zip_filter_label.
Qed.

(** X11: the economic values are grouped with their own records.  In the
    dashboard chart the bar of each category is the mean of the economic
    values of that category's kept records (0 where a record has none), or
    zero when the category has no record; in the box plot of the
    visualization script each box holds the economic values of the kept
    records of its category, with their mean written under it. *)
Theorem economic_values_grouped_by_category (data : list item) :
  (forall res chart,
     Dashboard.analyze_data data = Ok res ->
     Dashboard.create_economic_chart res = Ok chart ->
     Forall2 (fun freq (bar : string * num) =>
                bar.1 = freq /\
                match map economic_value_of (records_of_category freq (kept data)) with
                | [] => bar.2 = Num.of_Z 0
                | values => Py.np_mean values = Ok bar.2
                end)
             frequencies (value_bars chart)) /\
  (forall res boxes,
     Visualize.analyze_data data = Ok res ->
     Visualize.create_economic_value_distribution res = Ok (Some boxes) ->
     Forall (fun b =>
               Visualize.box_data b =
                 map economic_value_of
                   (records_of_category (Visualize.box_label b) (kept data)) /\
               Visualize.box_data b <> [] /\
               Py.np_mean (Visualize.box_data b) = Ok (Visualize.box_mean b))
            boxes).
Proof.
  split.
  - intros res chart Hres H.
    apply dashboard_analyze_from_kept in Hres as (Hf & He & _).
    cbn [Dashboard.empty_results Dashboard.sk_frequencies
           Dashboard.sk_economic_values app] in Hf, He.
    unfold Dashboard.create_economic_chart in H. rewrite Hf, He in H.
    apply bind_inv_Ok in H as (values & Hvalues & H). injection H as <-.
    cbn [value_bars]. apply mapM_Ok_Forall2 in Hvalues.
    apply Forall2_zip in Hvalues as [_ Hvalues].
    eapply Forall2_impl; [exact Hvalues|].
    intros freq bar [Hname Hbar]. split; [exact Hname|]. cbn beta in Hbar.
    rewrite (category_lookup economic_value_of) in Hbar.
    destruct (map economic_value_of _) as [|v vs]; [congruence | exact Hbar].
  - intros res boxes Hres H.
    apply visualize_analyze_from_kept in Hres as (Hf & He & _).
    cbn [Visualize.empty_results Visualize.sk_frequencies
           Visualize.sk_economic_values app] in Hf, He.
    unfold Visualize.create_economic_value_distribution in H.
    rewrite Hf, He, zip_map_r in H. cbv zeta in H.
    assert (Hvalid : Forall (fun fv : string * list jval =>
                               fv.2 = map economic_value_of
                                        (records_of_category fv.1 (kept data)) /\
                               fv.2 <> [])
                       (filter (fun fv : string * list jval => fv.2 <> [])
                          (map (fun freq =>
                                  (freq,
                                   default []
                                     (Py.dict_get
                                        (Py.group
                                           (Py.zip ((kept data).*1)
                                              (map economic_value_of (kept data))))
                                        (JStr freq)))) frequencies))).
    { apply Forall_forall. intros fv Hfv.
      apply list_elem_of_filter in Hfv as [Hne Hfv].
      apply list_elem_of_fmap in Hfv as (freq & -> & _). cbn [fst snd] in *.
      split; [apply category_lookup | exact Hne]. }
    change (map (fun r : jval * gmap string jval =>
                   default (JNum (Num.of_Z 0)) (r.2 !! "EconomicValue")) (kept data))
      with (map economic_value_of (kept data)) in H.
    destruct (filter _ (map _ frequencies)) as [|fv valid]; [discriminate|].
    apply bind_inv_Ok in H as (boxes' & Hboxes & H). injection H as <-.
    apply mapM_Ok_Forall2 in Hboxes.
    induction Hboxes as [|fv' b valid' boxes' Hb _ IH]; [constructor|].
    apply Forall_cons in Hvalid as [[Hdata Hne] Hvalid].
    constructor; [|by apply IH].
    apply bind_inv_Ok in Hb as (mean_val & Hmean & Hb). injection Hb as <-.
    cbn [Visualize.box_data Visualize.box_label Visualize.box_mean].
    split; [exact Hdata|]. split; [exact Hne | exact Hmean].
Qed.

Lemma economic_values_grouped_by_category_witness :
  exists res boxes,
    Visualize.analyze_data
      [Sample.immediate; Sample.timed "evolution" "1 Ticks"; Sample.immediate] = Ok res /\
    Visualize.create_economic_value_distribution res = Ok (Some boxes) /\
    map Visualize.box_data boxes = [[JNum (Fin 0); JNum (Fin 0)]; [JNum (Fin 0)]].
Proof.
  do 2 eexists. split; [vm_compute; reflexivity|].
  split; [vm_compute; reflexivity|].
  pose proof (proj2 (economic_values_grouped_by_category
                       [Sample.immediate; Sample.timed "evolution" "1 Ticks";
                        Sample.immediate]) _ _
                ltac:(vm_compute; reflexivity) ltac:(vm_compute; reflexivity)) as H.
  apply Forall_cons in H as [(H1 & _) H]. apply Forall_cons in H as [(H2 & _) _].
  cbn [map]. rewrite H1, H2. vm_compute. reflexivity.
Defined.
